(** * nuke_bridge: a command-line bridge to the Nuke scripting API

    Shallow embedding of [src/nuke_bridge.py].  The script reads a command
    name and an optional JSON argument blob from [sys.argv], calls one of
    four handlers against the host module [nuke], and prints one JSON
    envelope.

    - Python values are the inductive [pyval]; dictionaries are association
      lists in insertion order; a [str] is held as the bytes of its UTF-8
      text.
    - Exceptions are values of [exn]; a computation returns [Ok a] or
      [Err e] together with the world it leaves behind.
    - The host application is not part of the script: it is a record
      [Nuke H] of state-passing operations over an arbitrary host state
      [H].  Every host call the script makes is logged in the world, so
      that "no host call was made" is a statement about the log.
    - What the Python runtime supplies ([json.loads], [int] on a string,
      [repr], message texts) is the record [Runtime]. *)

From Stdlib Require Import ZArith List String Ascii Bool Lia.
From Stdlib Require Import DecimalString.
From Stdlib Require Import Floats.SpecFloat.
Import ListNotations.
Open Scope string_scope.

Set Implicit Arguments.
Local Set Warnings "-register-all".

(* ===================================================================== *)
(** * Python values *)
(* ===================================================================== *)

(** [PObj h] is any object that is neither [None], a number, a string, a
    list nor a dict: [json.dumps] rejects it. *)
Inductive pyval : Type :=
| PNone
| PBool (b : bool)
| PInt (z : Z)
| PFloat (f : spec_float)
| PStr (s : string)
| PList (l : list pyval)
| PDict (d : list (string * pyval))
| PObj (h : nat).

Definition dict := list (string * pyval).

(** ** Exceptions *)

Inductive exn_class : Type :=
| JSONDecodeError
| ImportError
| ModuleNotFoundError
| TypeError
| ValueError
| OverflowError
| AttributeError
| KeyError
| RuntimeError
| RecursionError
| OtherException (name : string)
| KeyboardInterrupt
| SystemExit.

(** [except Exception] catches every class but the two that derive from
    [BaseException] directly. *)
Definition is_Exception (c : exn_class) : bool :=
  match c with
  | KeyboardInterrupt | SystemExit => false
  | _ => true
  end.

(** [except json.JSONDecodeError] *)
Definition is_JSONDecodeError (c : exn_class) : bool :=
  match c with
  | JSONDecodeError => true
  | _ => false
  end.

(** [except ImportError]; [ModuleNotFoundError] is its subclass. *)
Definition is_ImportError (c : exn_class) : bool :=
  match c with
  | ImportError | ModuleNotFoundError => true
  | _ => false
  end.

(** An exception object: its class and [str(e)]. *)
Record exn : Type := Exn { exn_cls : exn_class; exn_str : string }.

Inductive res (A : Type) : Type :=
| Ok (a : A)
| Err (e : exn).
Arguments Ok {A} a.
Arguments Err {A} e.

(** ** Dictionaries *)

Fixpoint dict_lookup (k : string) (d : dict) : option pyval :=
  match d with
  | [] => None
  | (k', v) :: d' => if String.eqb k k' then Some v else dict_lookup k d'
  end.

Definition dict_mem (k : string) (d : dict) : bool :=
  match dict_lookup k d with
  | Some _ => true
  | None => false
  end.

(** [d[k] = v]: overwrite in place, or append a new key at the end. *)
Fixpoint dict_set (d : dict) (k : string) (v : pyval) : dict :=
  match d with
  | [] => [(k, v)]
  | (k', v') :: d' =>
      if String.eqb k k' then (k', v) :: d' else (k', v') :: dict_set d' k v
  end.

(** ** Truth value, [str], [int] *)

(** [bool(v)], as used by [if v:]. *)
Definition truthy (v : pyval) : bool :=
  match v with
  | PNone => false
  | PBool b => b
  | PInt z => negb (Z.eqb z 0)
  | PFloat (S754_zero _) => false
  | PFloat _ => true
  | PStr s => negb (String.eqb s "")
  | PList l => match l with [] => false | _ => true end
  | PDict d => match d with [] => false | _ => true end
  | PObj _ => true
  end.

(** [v == s] for a string literal [s]. *)
Definition eq_str (v : pyval) (s : string) : bool :=
  match v with
  | PStr s' => String.eqb s' s
  | _ => false
  end.

(** [v in [s1, s2, ...]] for a list of string literals. *)
Definition in_strs (v : pyval) (l : list string) : bool :=
  existsb (eq_str v) l.

Definition str_of_Z (z : Z) : string :=
  NilZero.string_of_int (Z.to_int z).

(** [json.dumps] accepts a value when no opaque object occurs in it. *)
Fixpoint serializable (v : pyval) : bool :=
  match v with
  | PObj _ => false
  | PList l => forallb serializable l
  | PDict d =>
      (fix go (d : dict) : bool :=
         match d with
         | [] => true
         | (_, x) :: d' => serializable x && go d'
         end) d
  | _ => true
  end.

(** Truncation toward zero of the float [(-1)^s * m * 2^e]. *)
Definition trunc_finite (s : bool) (m : positive) (e : Z) : Z :=
  let a := if (0 <=? e)%Z then (Z.pos m * 2 ^ e)%Z
           else (Z.pos m / 2 ^ (- e))%Z in
  if s then (- a)%Z else a.

(** What the script takes from the Python runtime. *)
Record Runtime : Type := {
  (** [json.loads(s)] *)
  json_loads : string -> res pyval;
  (** [int(s)] for a string [s]; [None] when it raises [ValueError] *)
  str_to_int : string -> option Z;
  (** [str(v)] for floats, lists, dicts and opaque objects *)
  py_repr : pyval -> string;
  (** [str(e)] of an exception of the given class raised by a built-in
      on the given operand *)
  builtin_msg : exn_class -> pyval -> string;
  (** [traceback.format_exc()] inside the handler of [e] *)
  format_exc : exn -> string
}.

Section Builtins.
Variable rt : Runtime.

Definition builtin_exn (c : exn_class) (v : pyval) : exn :=
  Exn c (builtin_msg rt c v).

(** [str(v)], which is what an f-string field [{v}] inserts. *)
Definition py_str (v : pyval) : string :=
  match v with
  | PNone => "None"
  | PBool true => "True"
  | PBool false => "False"
  | PInt z => str_of_Z z
  | PStr s => s
  | _ => py_repr rt v
  end.

(** [int(v)] *)
Definition py_int (v : pyval) : res Z :=
  match v with
  | PInt z => Ok z
  | PBool b => Ok (if b then 1%Z else 0%Z)
  | PFloat (S754_zero _) => Ok 0%Z
  | PFloat (S754_finite s m e) => Ok (trunc_finite s m e)
  | PFloat (S754_infinity _) => Err (builtin_exn OverflowError v)
  | PFloat S754_nan => Err (builtin_exn ValueError v)
  | PStr s =>
      match str_to_int rt s with
      | Some z => Ok z
      | None => Err (builtin_exn ValueError v)
      end
  | _ => Err (builtin_exn TypeError v)
  end.

(** [key in args] *)
Definition py_contains (key : string) (args : pyval) : res bool :=
  match args with
  | PDict d => Ok (dict_mem key d)
  | PList l => Ok (existsb (fun x => eq_str x key) l)
  | PStr s =>
      Ok (match String.index 0 key s with Some _ => true | None => false end)
  | _ => Err (builtin_exn TypeError args)
  end.

(** [args[key]] *)
Definition py_getitem (args : pyval) (key : string) : res pyval :=
  match args with
  | PDict d =>
      match dict_lookup key d with
      | Some v => Ok v
      | None => Err (builtin_exn KeyError (PStr key))
      end
  | _ => Err (builtin_exn TypeError args)
  end.

(** [args.get(key, default)] *)
Definition py_get (args : pyval) (key : string) (default : pyval)
  : res pyval :=
  match args with
  | PDict d =>
      match dict_lookup key d with
      | Some v => Ok v
      | None => Ok default
      end
  | _ => Err (builtin_exn AttributeError args)
  end.

(** A [str] is a sequence of code points; [PStr] holds it as the bytes
    of its UTF-8 text.  There a byte [10xxxxxx] continues the code point
    begun before it, and every other byte begins one. *)
Definition continues (c : ascii) : bool :=
  match c with
  | Ascii _ _ _ _ _ _ b6 b7 => b7 && negb b6
  end.

(** The code points of a string, each as the string of its own bytes:
    a byte is put in front of the code point that follows when that one
    begins with a continuation byte, and is a code point of its own
    otherwise. *)
Fixpoint code_points (s : string) : list string :=
  match s with
  | EmptyString => []
  | String c s' =>
      match code_points s' with
      | String c' p :: rest =>
          if continues c' then String c (String c' p) :: rest
          else String c EmptyString :: String c' p :: rest
      | ps => String c EmptyString :: ps
      end
  end.

(** The characters of a string, each as a one-character string: what
    iterating over a [str] yields. *)
Definition chars (s : string) : list pyval :=
  map PStr (code_points s).

(** The items [enumerate(v)] goes through. *)
Definition py_iter (v : pyval) : res (list pyval) :=
  match v with
  | PList l => Ok l
  | PStr s => Ok (chars s)
  | PDict d => Ok (map (fun kv => PStr (fst kv)) d)
  | _ => Err (builtin_exn TypeError v)
  end.

(** [key in d] for a dict [d] whose keys are the strings [keys]:
    lists and dicts are unhashable. *)
Definition py_in_keys (key : pyval) (keys : list string) : res bool :=
  match key with
  | PStr s => Ok (existsb (String.eqb s) keys)
  | PList _ | PDict _ => Err (builtin_exn TypeError key)
  | _ => Ok false
  end.
End Builtins.

(* ===================================================================== *)
(** * The host interface and the world *)
(* ===================================================================== *)

(** Opaque handles the host hands out. *)
Inductive node : Type := NodeRef (h : nat).
Inductive knob : Type := KnobRef (owner : node) (h : nat).

(** The [nuke] module as the script uses it, over a host state [H].
    [nuke.toNode] answers [None] or a node object; a node object is a
    true value under [if node:]. *)
Record Nuke (H : Type) : Type := {
  (** [nuke.createNode(node_type, inpanel=False)] *)
  nk_createNode : pyval -> H -> res node * H;
  (** [nuke.toNode(name)] *)
  nk_toNode : pyval -> H -> res (option node) * H;
  (** [nuke.execute(node, first, last)] *)
  nk_execute : node -> Z -> Z -> H -> res unit * H;
  (** [node[key]] *)
  nd_getitem : node -> pyval -> H -> res knob * H;
  (** [node.setInput(i, other)] *)
  nd_setInput : node -> nat -> node -> H -> res unit * H;
  (** [node.name()], [node.Class()], [node.xpos()], [node.ypos()] *)
  nd_name : node -> H -> res pyval * H;
  nd_Class : node -> H -> res pyval * H;
  nd_xpos : node -> H -> res pyval * H;
  nd_ypos : node -> H -> res pyval * H;
  (** the keys of the dict [node.knobs()] *)
  nd_knobs : node -> H -> res (list string) * H;
  (** [knob.setValue(v)], [knob.Class()], [knob.value()] *)
  kb_setValue : knob -> pyval -> H -> res unit * H;
  kb_Class : knob -> H -> res pyval * H;
  kb_value : knob -> H -> res pyval * H
}.

(** One entry of the log of host calls. *)
Inductive hcall : Type :=
| CreateNode (node_type : pyval)
| ToNode (name : pyval)
| Execute (n : node) (first last : Z)
| GetItem (n : node) (key : pyval)
| SetInput (n : node) (i : nat) (other : node)
| NodeName (n : node)
| NodeClass (n : node)
| XPos (n : node)
| YPos (n : node)
| Knobs (n : node)
| SetValue (k : knob) (v : pyval)
| KnobClass (k : knob)
| KnobValue (k : knob).

(** The world: the host session, the host calls made so far, and the
    JSON documents printed so far (one line each). *)
Record world (H : Type) : Type := World {
  w_host : H;
  w_calls : list hcall;
  w_out : list pyval
}.

(** ** The monad of the script *)

Definition M (H A : Type) : Type := world H -> res A * world H.

Definition ret {H A} (a : A) : M H A := fun w => (Ok a, w).

Definition raise {H A} (e : exn) : M H A := fun w => (Err e, w).

Definition bind {H A B} (m : M H A) (f : A -> M H B) : M H B :=
  fun w =>
    match m w with
    | (Ok a, w') => f a w'
    | (Err e, w') => (Err e, w')
    end.

Definition lift {H A} (r : res A) : M H A := fun w => (r, w).

(** [try: body except Exception as e: handler] *)
Definition try_except {H A} (body : M H A) (handler : exn -> M H A) : M H A :=
  fun w =>
    match body w with
    | (Err e, w') =>
        if is_Exception (exn_cls e) then handler e w' else (Err e, w')
    | r => r
    end.

(** [try: body except: handler] *)
Definition try_bare {H A} (body : M H A) (handler : M H A) : M H A :=
  fun w =>
    match body w with
    | (Err _, w') => handler w'
    | r => r
    end.

(** A host call: run it on the session and log it. *)
Definition call {H A} (c : hcall) (op : H -> res A * H) : M H A :=
  fun w =>
    let (r, h') := op (w_host w) in
    (r, World h' (w_calls w ++ [c]) (w_out w)).

Declare Scope py_scope.
Delimit Scope py_scope with py.
Notation "x <- m ;; k" := (bind m (fun x => k))
  (at level 61, m at next level, right associativity) : py_scope.
Notation "m ;; k" := (bind m (fun _ => k))
  (at level 61, right associativity) : py_scope.
Open Scope py_scope.

(* ===================================================================== *)
(** * The script *)
(* ===================================================================== *)

Definition nl : string := String (ascii_of_nat 10) EmptyString.

Section Script.
Variable H : Type.
Variable rt : Runtime.

(** [print(json.dumps(response))]: [json.dumps] raises [TypeError] on a
    value it cannot serialise, before anything is printed. *)
Definition print_json (v : pyval) : M H unit :=
  fun w =>
    if serializable v
    then (Ok tt, World (w_host w) (w_calls w) (w_out w ++ [v]))
    else (Err (builtin_exn rt TypeError v), w).

(** [respond(success, data, error)] *)
Definition respond (success : bool) (data error : pyval) : M H unit :=
  let response := [("success", PBool success); ("data", data)] in
  let response :=
    if truthy error then dict_set response "error" error else response in
  print_json (PDict response).

(** ** Host calls, logged *)

Section Handlers.
Variable nuke : Nuke H.

Definition createNode (ty : pyval) : M H node :=
  call (CreateNode ty) (nk_createNode nuke ty).
Definition toNode (name : pyval) : M H (option node) :=
  call (ToNode name) (nk_toNode nuke name).
Definition nuke_execute (n : node) (a b : Z) : M H unit :=
  call (Execute n a b) (nk_execute nuke n a b).
Definition getitem (n : node) (key : pyval) : M H knob :=
  call (GetItem n key) (nd_getitem nuke n key).
Definition setInput (n : node) (i : nat) (m : node) : M H unit :=
  call (SetInput n i m) (nd_setInput nuke n i m).
Definition name_of (n : node) : M H pyval :=
  call (NodeName n) (nd_name nuke n).
Definition Class_of (n : node) : M H pyval :=
  call (NodeClass n) (nd_Class nuke n).
Definition xpos (n : node) : M H pyval :=
  call (XPos n) (nd_xpos nuke n).
Definition ypos (n : node) : M H pyval :=
  call (YPos n) (nd_ypos nuke n).
Definition knobs (n : node) : M H (list string) :=
  call (Knobs n) (nd_knobs nuke n).
Definition setValue (k : knob) (v : pyval) : M H unit :=
  call (SetValue k v) (kb_setValue nuke k v).
Definition knob_Class (k : knob) : M H pyval :=
  call (KnobClass k) (kb_Class nuke k).
Definition knob_value (k : knob) : M H pyval :=
  call (KnobValue k) (kb_value nuke k).

(** ** [create_node] *)

(** [nuke.createNode(node_type, inpanel=False)], then
    [if name: node["name"].setValue(name)]. *)
Definition create_and_name (node_type name : pyval) : M H node :=
  n <- createNode node_type ;;
  (if truthy name
   then k <- getitem n (PStr "name") ;; setValue k name
   else ret tt) ;;
  ret n.

(** The loop [for i, input_name in enumerate(inputs)], from index [i]
    on.  The result is [true] when the loop body has responded and
    returned from [create_node]. *)
Fixpoint connect_inputs (n : node) (i : nat) (inputs : list pyval)
  : M H bool :=
  match inputs with
  | [] => ret false
  | input_name :: rest =>
      input_node <- toNode input_name ;;
      match input_node with
      | Some m => setInput n i m ;; connect_inputs n (S i) rest
      | None =>
          respond false PNone
            (PStr ("Input node not found: " ++ py_str rt input_name)) ;;
          ret true
      end
  end.

(** The [try] statement of [create_node]. *)
Definition create_node_try (node_type name inputs : pyval) : M H unit :=
  try_except
    (n <- create_and_name node_type name ;;
     items <- lift (py_iter rt inputs) ;;
     returned <- connect_inputs n 0 items ;;
     if (returned : bool) then ret tt
     else
       nm <- name_of n ;;
       cl <- Class_of n ;;
       x <- xpos n ;;
       y <- ypos n ;;
       respond true
         (PDict [("name", nm); ("type", cl);
                 ("position", PDict [("x", x); ("y", y)])])
         PNone)
    (fun e =>
       respond false PNone
         (PStr ("Error creating node: " ++ exn_str e))).

Definition create_node (args : pyval) : M H unit :=
  has <- lift (py_contains rt "nodeType" args) ;;
  if negb has
  then respond false PNone (PStr "nodeType parameter is required")
  else
    node_type <- lift (py_getitem rt args "nodeType") ;;
    name <- lift (py_get rt args "name" PNone) ;;
    inputs <- lift (py_get rt args "inputs" (PList [])) ;;
    create_node_try node_type name inputs.

(** ** [set_knob_value] *)

Definition set_knob_value (args : pyval) : M H unit :=
  has <- lift (py_contains rt "nodeName" args) ;;
  if negb has
  then respond false PNone (PStr "nodeName parameter is required")
  else
  has <- lift (py_contains rt "knobName" args) ;;
  if negb has
  then respond false PNone (PStr "knobName parameter is required")
  else
  has <- lift (py_contains rt "value" args) ;;
  if negb has
  then respond false PNone (PStr "value parameter is required")
  else
    node_name <- lift (py_getitem rt args "nodeName") ;;
    knob_name <- lift (py_getitem rt args "knobName") ;;
    value <- lift (py_getitem rt args "value") ;;
    try_except
      (found <- toNode node_name ;;
       match found with
       | None =>
           respond false PNone
             (PStr ("Node not found: " ++ py_str rt node_name))
       | Some n =>
           ks <- knobs n ;;
           present <- lift (py_in_keys rt knob_name ks) ;;
           if negb present
           then respond false PNone
                  (PStr ("Knob not found: " ++ py_str rt knob_name))
           else
             k <- getitem n knob_name ;;
             setValue k value ;;
             respond true
               (PDict [("node", node_name); ("knob", knob_name);
                       ("value", value)])
               PNone
       end)
      (fun e =>
         respond false PNone
           (PStr ("Error setting knob value: " ++ exn_str e))).

(** ** [get_node] *)

(** One round of [for knob in node.knobs()], with its
    [try: ... except: pass].  [acc] is [node_info["knobs"]]. *)
Definition read_knob (n : node) (acc : dict) (knob : string)
  : M H dict :=
  try_bare
    (k <- getitem n (PStr knob) ;;
     c <- knob_Class k ;;
     if in_strs c ["String_Knob"; "File_Knob"; "Text_Knob"]
     then v <- knob_value k ;; ret (dict_set acc knob v)
     else
       c' <- knob_Class k ;;
       if in_strs c' ["Int_Knob"; "Double_Knob"; "Boolean_Knob";
                      "XY_Knob"]
       then v <- knob_value k ;; ret (dict_set acc knob v)
       else ret acc)
    (ret acc).

Fixpoint collect_knobs (n : node) (ks : list string) (acc : dict)
  : M H dict :=
  match ks with
  | [] => ret acc
  | knob :: rest =>
      acc' <- read_knob n acc knob ;; collect_knobs n rest acc'
  end.

(** The [try] statement of [get_node]. *)
Definition get_node_try (node_name : pyval) : M H unit :=
  try_except
    (found <- toNode node_name ;;
     match found with
     | None =>
         respond false PNone
           (PStr ("Node not found: " ++ py_str rt node_name))
     | Some n =>
         nm <- name_of n ;;
         cl <- Class_of n ;;
         x <- xpos n ;;
         y <- ypos n ;;
         ks <- knobs n ;;
         kn <- collect_knobs n ks [] ;;
         respond true
           (PDict [("name", nm); ("type", cl);
                   ("position", PDict [("x", x); ("y", y)]);
                   ("knobs", PDict kn)])
           PNone
     end)
    (fun e =>
       respond false PNone
         (PStr ("Error getting node info: " ++ exn_str e))).

Definition get_node (args : pyval) : M H unit :=
  has <- lift (py_contains rt "nodeName" args) ;;
  if negb has
  then respond false PNone (PStr "nodeName parameter is required")
  else
    node_name <- lift (py_getitem rt args "nodeName") ;;
    get_node_try node_name.

(** ** [execute] *)

Definition execute (args : pyval) : M H unit :=
  has <- lift (py_contains rt "writeNodeName" args) ;;
  if negb has
  then respond false PNone (PStr "writeNodeName parameter is required")
  else
  has <- lift (py_contains rt "frameRangeStart" args) ;;
  if negb has
  then respond false PNone (PStr "frameRangeStart parameter is required")
  else
  has <- lift (py_contains rt "frameRangeEnd" args) ;;
  if negb has
  then respond false PNone (PStr "frameRangeEnd parameter is required")
  else
    write_node_name <- lift (py_getitem rt args "writeNodeName") ;;
    frame_start <- lift (py_getitem rt args "frameRangeStart") ;;
    frame_end <- lift (py_getitem rt args "frameRangeEnd") ;;
    try_except
      (found <- toNode write_node_name ;;
       match found with
       | None =>
           respond false PNone
             (PStr ("Write node not found: "
                    ++ py_str rt write_node_name))
       | Some write_node =>
           cl <- Class_of write_node ;;
           if negb (eq_str cl "Write")
           then respond false PNone
                  (PStr ("Node " ++ py_str rt write_node_name
                         ++ " is not a Write node"))
           else
             a <- lift (py_int rt frame_start) ;;
             b <- lift (py_int rt frame_end) ;;
             nuke_execute write_node a b ;;
             k <- getitem write_node (PStr "file") ;;
             path <- knob_value k ;;
             respond true
               (PDict [("node", write_node_name);
                       ("rendered", PBool true);
                       ("frameRange",
                        PDict [("start", frame_start);
                               ("end", frame_end)]);
                       ("outputPath", path)])
               PNone
       end)
      (fun e =>
         respond false PNone
           (PStr ("Error executing write node: " ++ exn_str e))).

(** The [if command == ...] chain of [main]. *)
Definition dispatch (command : string) (args : pyval) : M H unit :=
  if String.eqb command "createNode" then create_node args
  else if String.eqb command "setKnobValue" then set_knob_value args
  else if String.eqb command "getNode" then get_node args
  else if String.eqb command "execute" then execute args
  else respond false PNone (PStr ("Unknown command: " ++ command)).
End Handlers.

(** ** [main] *)

(** What [import nuke] does in this process. *)
Inductive import_result : Type :=
| Imported (nuke : Nuke H)
| ImportRaises (e : exn).

(** The outer [try] of [main], entered once [args] is known. *)
Definition run_command (imp : import_result) (command : string)
  (args : pyval) : M H unit :=
  try_except
    (match imp with
     | ImportRaises e =>
         if is_ImportError (exn_cls e)
         then respond false PNone
                (PStr ("Failed to import nuke module. "
                       ++ "Make sure this script is run within Nuke."))
         else raise e
     | Imported nuke => dispatch nuke command args
     end)
    (fun e =>
       respond false PNone
         (PStr ("Error executing command: " ++ exn_str e ++ nl
                ++ format_exc rt e))).

(** [main()], with [argv] standing for [sys.argv].  The result [Ok tt]
    is a normal return; [Err e] is [e] leaving [main] uncaught. *)
Definition main (imp : import_result) (argv : list string) : M H unit :=
  if (List.length argv <? 2)%nat
  then respond false PNone (PStr "No command specified")
  else
    let command := nth 1 argv "" in
    if (2 <? List.length argv)%nat
    then
      match json_loads rt (nth 2 argv "") with
      | Ok args => run_command imp command args
      | Err e =>
          if is_JSONDecodeError (exn_cls e)
          then respond false PNone
                 (PStr ("Invalid JSON arguments: " ++ exn_str e))
          else raise e
      end
    else run_command imp command (PDict []).
End Script.

Arguments Imported {H} nuke.
Arguments ImportRaises {H} e.

(* ===================================================================== *)
(** * A small scripted session, to run the script on *)
(* ===================================================================== *)

(** A stand-in for the host: nodes in a list, a node handle is its
    position in the list, a knob handle is the owner and the position of
    the knob in the owner's knob list.  It fixes no behaviour of the real
    host; the general theorems below quantify over every [Nuke H]. *)
Module Mock.

Record mknob : Type := MKnob {
  mk_key : string;
  mk_kind : string;
  mk_value : pyval;
  mk_busy : bool                (* [value()] raises when set *)
}.

Record mnode : Type := MNode {
  mn_name : string;
  mn_class : string;
  mn_x : Z;
  mn_y : Z;
  mn_inputs : list (nat * node);
  mn_knobs : list mknob
}.

Record session : Type := Session {
  nodes : list mnode;
  renders : list (node * Z * Z)
}.

Definition detached : exn :=
  Exn ValueError "A PythonObject is not attached to a node".

Definition bad_argument : exn :=
  Exn TypeError "argument 1 must be str".

Definition busy : exn := Exn RuntimeError "knob is busy".

Definition no_such_knob : exn :=
  Exn (OtherException "NameError") "knob does not exist".

Definition get (n : node) (s : session) : option mnode :=
  match n with NodeRef i => nth_error (nodes s) i end.

Fixpoint update {A} (l : list A) (i : nat) (f : A -> A) : list A :=
  match l, i with
  | [], _ => []
  | x :: l', O => f x :: l'
  | x :: l', S i' => x :: update l' i' f
  end.

Definition modify (n : node) (f : mnode -> mnode) (s : session)
  : session :=
  match n with
  | NodeRef i => Session (update (nodes s) i f) (renders s)
  end.

Fixpoint find_name (name : string) (l : list mnode) (i : nat)
  : option node :=
  match l with
  | [] => None
  | x :: l' =>
      if String.eqb (mn_name x) name then Some (NodeRef i)
      else find_name name l' (S i)
  end.

Fixpoint find_key (key : string) (l : list mknob) (i : nat)
  : option nat :=
  match l with
  | [] => None
  | k :: l' =>
      if String.eqb (mk_key k) key then Some i else find_key key l' (S i)
  end.

Definition fresh (class : string) : mnode :=
  let name := class ++ "1" in
  MNode name class 0 0 []
    (MKnob "name" "String_Knob" (PStr name) false
     :: (if String.eqb class "Write"
         then [MKnob "file" "File_Knob" (PStr "") false]
         else [])).

(** Reading through a node handle. *)
Definition on_node {A} (n : node) (f : mnode -> res A) (s : session)
  : res A * session :=
  match get n s with
  | Some x => (f x, s)
  | None => (Err detached, s)
  end.

(** Reading through a knob handle. *)
Definition on_knob {A} (k : knob) (f : mknob -> res A) (s : session)
  : res A * session :=
  match k with
  | KnobRef n j =>
      on_node n (fun x =>
                   match nth_error (mn_knobs x) j with
                   | Some y => f y
                   | None => Err detached
                   end) s
  end.

Definition set_knob (v : pyval) (j : nat) (x : mnode) : mnode :=
  let knobs' := update (mn_knobs x) j
                  (fun y => MKnob (mk_key y) (mk_kind y) v (mk_busy y)) in
  let renamed :=
    match nth_error (mn_knobs x) j, v with
    | Some y, PStr s => if String.eqb (mk_key y) "name" then s
                        else mn_name x
    | _, _ => mn_name x
    end in
  MNode renamed (mn_class x) (mn_x x) (mn_y x) (mn_inputs x) knobs'.

Definition host : Nuke session := {|
  nk_createNode := fun ty s =>
    match ty with
    | PStr class =>
        (Ok (NodeRef (List.length (nodes s))),
         Session (nodes s ++ [fresh class]) (renders s))
    | _ => (Err bad_argument, s)
    end;
  nk_toNode := fun name s =>
    match name with
    | PStr x => (Ok (find_name x (nodes s) 0), s)
    | _ => (Err bad_argument, s)
    end;
  nk_execute := fun n a b s =>
    match get n s with
    | Some _ => (Ok tt, Session (nodes s) (renders s ++ [(n, a, b)]))
    | None => (Err detached, s)
    end;
  nd_getitem := fun n key s =>
    on_node n (fun x =>
                 match key with
                 | PStr k =>
                     match find_key k (mn_knobs x) 0 with
                     | Some j => Ok (KnobRef n j)
                     | None => Err no_such_knob
                     end
                 | _ => Err bad_argument
                 end) s;
  nd_setInput := fun n i m s =>
    match get n s with
    | Some _ =>
        (Ok tt,
         modify n (fun x => MNode (mn_name x) (mn_class x) (mn_x x)
                              (mn_y x) (mn_inputs x ++ [(i, m)])
                              (mn_knobs x)) s)
    | None => (Err detached, s)
    end;
  nd_name := fun n => on_node n (fun x => Ok (PStr (mn_name x)));
  nd_Class := fun n => on_node n (fun x => Ok (PStr (mn_class x)));
  nd_xpos := fun n => on_node n (fun x => Ok (PInt (mn_x x)));
  nd_ypos := fun n => on_node n (fun x => Ok (PInt (mn_y x)));
  nd_knobs := fun n => on_node n (fun x => Ok (map mk_key (mn_knobs x)));
  kb_setValue := fun k v s =>
    match k with
    | KnobRef n j =>
        match get n s with
        | Some _ => (Ok tt, modify n (set_knob v j) s)
        | None => (Err detached, s)
        end
    end;
  kb_Class := fun k => on_knob k (fun y => Ok (PStr (mk_kind y)));
  kb_value := fun k =>
    on_knob k (fun y => if mk_busy y then Err busy else Ok (mk_value y))
|}.

(** A session with a reader, a colour node with knobs of several
    kinds, and a render node. *)
Definition Read1 : mnode :=
  MNode "Read1" "Read" 10 20 []
    [MKnob "name" "String_Knob" (PStr "Read1") false;
     MKnob "file" "File_Knob" (PStr "/shots/a.%04d.exr") false].

Definition Grade1 : mnode :=
  MNode "Grade1" "Grade" 10 80 [(0%nat, NodeRef 0)]
    [MKnob "name" "String_Knob" (PStr "Grade1") false;
     MKnob "channels" "Channel_Knob" (PStr "rgb") false;
     MKnob "mix" "Double_Knob" (PInt 1) false;
     MKnob "white" "AColor_Knob" (PObj 7) false;
     MKnob "label" "Text_Knob" (PStr "") true;
     MKnob "unpremult" "Boolean_Knob" (PBool false) false].

Definition Write1 : mnode :=
  MNode "Write1" "Write" 10 140 [(0%nat, NodeRef 1)]
    [MKnob "name" "String_Knob" (PStr "Write1") false;
     MKnob "file" "File_Knob" (PStr "/out/b.%04d.exr") false].

Definition studio : session := Session [Read1; Grade1; Write1] [].

Definition start : world session := World studio [] [].

(** ** A stand-in for the Python runtime *)

(** The number of ['['] a text opens with. *)
Fixpoint opening_brackets (s : string) : N :=
  match s with
  | String c s' =>
      if Ascii.eqb c "["%char then N.succ (opening_brackets s') else 0%N
  | EmptyString => 0%N
  end.

Definition decode_error : exn :=
  Exn JSONDecodeError "Expecting value: line 1 column 1 (char 0)".

Definition too_deep : exn :=
  Exn RecursionError
    ("maximum recursion depth exceeded while decoding a JSON array "
     ++ "from a unicode string").

(** [json.loads] on the few texts used below.  A text nested deeper
    than the interpreter's recursion limit makes the decoder raise
    [RecursionError], which is not a [JSONDecodeError]. *)
Definition loads (table : list (string * pyval)) (s : string)
  : res pyval :=
  if (100000 <=? opening_brackets s)%N then Err too_deep
  else
    match dict_lookup s table with
    | Some v => Ok v
    | None => Err decode_error
    end.

(** [int(s)] on a few texts. *)
Definition to_int (s : string) : option Z :=
  if String.eqb s "7" then Some 7%Z
  else if String.eqb s "12" then Some 12%Z
  else None.

Definition python (table : list (string * pyval)) : Runtime := {|
  json_loads := loads table;
  str_to_int := to_int;
  py_repr := fun _ => "<object>";
  builtin_msg := fun _ _ => "bad operand";
  format_exc := fun _ => "Traceback (most recent call last): ..."
|}.


(** The text
    [{"writeNodeName": "Write1", "frameRangeStart": 1, "frameRangeEnd": 12}]
    and what it decodes to. *)
Definition quote : string := String (ascii_of_nat 34) EmptyString.

Definition render_text : string :=
  "{" ++ quote ++ "writeNodeName" ++ quote ++ ": "
      ++ quote ++ "Write1" ++ quote ++ ", "
      ++ quote ++ "frameRangeStart" ++ quote ++ ": 1, "
      ++ quote ++ "frameRangeEnd" ++ quote ++ ": 12}".

Definition render_request : dict :=
  [("writeNodeName", PStr "Write1"); ("frameRangeStart", PInt 1);
   ("frameRangeEnd", PInt 12)].

(** The runtime of the runs below; it decodes the empty object and the
    render request. *)
Definition runtime : Runtime :=
  python [("{}", PDict []); (render_text, PDict render_request)].

(** The host when the user interrupts a render: [nuke.execute] raises
    [KeyboardInterrupt]; everything else as in [host]. *)
Definition interrupt : exn := Exn KeyboardInterrupt "".

Definition interrupted : Nuke session := {|
  nk_createNode := nk_createNode host;
  nk_toNode := nk_toNode host;
  nk_execute := fun _ _ _ s => (Err interrupt, s);
  nd_getitem := nd_getitem host;
  nd_setInput := nd_setInput host;
  nd_name := nd_name host;
  nd_Class := nd_Class host;
  nd_xpos := nd_xpos host;
  nd_ypos := nd_ypos host;
  nd_knobs := nd_knobs host;
  kb_setValue := kb_setValue host;
  kb_Class := kb_Class host;
  kb_value := kb_value host
|}.




(** ** Argument mappings *)

Definition merge_args : dict :=
  [("nodeType", PStr "Merge2");
   ("inputs", PList [PStr "Read1"; PStr "Nope"; PStr "Grade1"])].

Definition blur_args : dict :=
  [("nodeType", PStr "Blur"); ("name", PStr "");
   ("inputs", PList [PStr "Grade1"])].

Definition one_half : pyval := PFloat (S754_finite false 1 (-1)).

Definition one_and_a_half : pyval := PFloat (S754_finite false 3 (-1)).

Definition set_args (node_name knob_name : string) : dict :=
  [("nodeName", PStr node_name); ("knobName", PStr knob_name);
   ("value", one_half)].

(** Frames [first] to "12", on the node [name]. *)
Definition render_args (name : string) (first : pyval) : dict :=
  [("writeNodeName", PStr name); ("frameRangeStart", first);
   ("frameRangeEnd", PStr "12")].

(** The host when it refuses to change anything: wiring an input, setting
    a knob and rendering raise [RuntimeError]; everything else as in
    [host]. *)
Definition refused : exn := Exn RuntimeError "refused".

Definition refusing : Nuke session := {|
  nk_createNode := nk_createNode host;
  nk_toNode := nk_toNode host;
  nk_execute := fun _ _ _ s => (Err refused, s);
  nd_getitem := nd_getitem host;
  nd_setInput := fun _ _ _ s => (Err refused, s);
  nd_name := nd_name host;
  nd_Class := nd_Class host;
  nd_xpos := nd_xpos host;
  nd_ypos := nd_ypos host;
  nd_knobs := nd_knobs host;
  kb_setValue := fun _ _ s => (Err refused, s);
  kb_Class := kb_Class host;
  kb_value := kb_value host
|}.

(** A session whose render node cannot report its output path. *)
Definition Write2 : mnode :=
  MNode "Write2" "Write" 10 140 []
    [MKnob "name" "String_Knob" (PStr "Write2") false;
     MKnob "file" "File_Knob" (PStr "/out/c.%04d.exr") true].

Definition backlot : session := Session [Read1; Write2] [].

(** More argument mappings. *)
(** The UTF-8 text of U+03A9, one character in two bytes. *)
Definition omega : string :=
  String (ascii_of_nat 206) (String (ascii_of_nat 169) EmptyString).

Definition soft_args : dict :=
  [("nodeType", PStr "Blur"); ("name", PStr "Soft");
   ("inputs", PList [PStr "Read1"; PStr "Soft"])].

Definition create_args (node_type inputs : pyval) : dict :=
  [("nodeType", node_type); ("inputs", inputs)].

End Mock.

(* ===================================================================== *)
(** * Vocabulary of the statements *)
(* ===================================================================== *)

(** The two envelopes the script prints. *)
Definition failure (msg : string) : pyval :=
  PDict [("success", PBool false); ("data", PNone); ("error", PStr msg)].

Definition success (data : pyval) : pyval :=
  PDict [("success", PBool true); ("data", data)].

Inductive envelope : pyval -> Prop :=
| envelope_failure (msg : string) : envelope (failure msg)
| envelope_success (data : pyval) : envelope (success data).

(** The shape of a response envelope: keys [success] and [data], [data]
    null on failure, and a key [error] exactly on failure. *)
Definition envelope_shape (v : pyval) : Prop :=
  exists (d : dict) (b : bool) (data : pyval),
    v = PDict d
    /\ dict_lookup "success" d = Some (PBool b)
    /\ dict_lookup "data" d = Some data
    /\ (b = false -> data = PNone)
    /\ (dict_mem "error" d = true <-> b = false).

(** The required keys of each command, in the order of the table of
    operations. *)
Definition required_keys (command : string) : list string :=
  if String.eqb command "createNode" then ["nodeType"]
  else if String.eqb command "setKnobValue"
       then ["nodeName"; "knobName"; "value"]
  else if String.eqb command "getNode" then ["nodeName"]
  else if String.eqb command "execute"
       then ["writeNodeName"; "frameRangeStart"; "frameRangeEnd"]
  else [].

(** What [args.get(key, default)] gives on a dict. *)
Definition get_or (d : dict) (key : string) (default : pyval) : pyval :=
  match dict_lookup key d with
  | Some v => v
  | None => default
  end.

Definition first_missing (keys : list string) (d : dict) : option string :=
  find (fun k => negb (dict_mem k d)) keys.

(** The parameter kinds whose value enters the snapshot of [getNode]. *)
Definition scalar_kinds : list string :=
  ["String_Knob"; "File_Knob"; "Text_Knob";
   "Int_Knob"; "Double_Knob"; "Boolean_Knob"; "XY_Knob"].

(** What the specification says of one parameter: it enters the
    snapshot with its value when it can be read and its reported kind is
    scalar, and is left out otherwise. *)
Definition snapshot_read (knob_of : string -> res knob)
  (kind_of value_of : knob -> res pyval) (key : string) : option pyval :=
  match knob_of key with
  | Ok k =>
      match kind_of k with
      | Ok c =>
          if in_strs c scalar_kinds
          then match value_of k with
               | Ok v => Some v
               | Err _ => None
               end
          else None
      | Err _ => None
      end
  | Err _ => None
  end.

Definition snapshot_step (knob_of : string -> res knob)
  (kind_of value_of : knob -> res pyval) (acc : dict) (key : string)
  : dict :=
  match snapshot_read knob_of kind_of value_of key with
  | Some v => dict_set acc key v
  | None => acc
  end.

(** The snapshot over the parameter names [keys], in order. *)
Definition snapshot (knob_of : string -> res knob)
  (kind_of value_of : knob -> res pyval) (keys : list string) : dict :=
  fold_left (snapshot_step knob_of kind_of value_of) keys [].

(** The payload of [getNode]. *)
Definition node_info (name class x y : pyval) (knobs : dict) : pyval :=
  PDict [("name", name); ("type", class);
         ("position", PDict [("x", x); ("y", y)]);
         ("knobs", PDict knobs)].

(** A call that renames: reading a knob off a node, or setting one. *)
Definition is_rename_step (c : hcall) : bool :=
  match c with
  | GetItem _ _ | SetValue _ _ => true
  | _ => false
  end.

(** A call of the input loop that stays below slot [i]. *)
Definition wires_below (i : nat) (c : hcall) : Prop :=
  match c with
  | ToNode _ => True
  | SetInput _ j _ => j < i
  | _ => False
  end.

(** The calls that wire [names], resolved to the nodes [ms], to the
    inputs of [n] in list order: the first name to slot [i], the next
    to slot [i+1], and so on, each lookup followed by its wiring. *)
Fixpoint wiring (n : node) (i : nat) (names : list pyval) (ms : list node)
  : list hcall :=
  match names, ms with
  | x :: names', m :: ms' =>
      ToNode x :: SetInput n i m :: wiring n (S i) names' ms'
  | _, _ => []
  end.

(** The four queries that fill the payload of [createNode]. *)
Definition info_queries (n : node) : list hcall :=
  [NodeName n; NodeClass n; XPos n; YPos n].

Section HostBehaviour.
Variable H : Type.
Variable nuke : Nuke H.

(** [op] raises nothing outside [E]. *)
Definition raises_only {A} (E : exn -> Prop) (op : H -> res A * H) : Prop :=
  forall h e h', op h = (Err e, h') -> E e.

(** Every host operation raises nothing outside [E]. *)
Record host_raises (E : exn -> Prop) : Prop := {
  hr_createNode : forall ty, raises_only E (nk_createNode nuke ty);
  hr_toNode : forall x, raises_only E (nk_toNode nuke x);
  hr_execute : forall n a b, raises_only E (nk_execute nuke n a b);
  hr_getitem : forall n key, raises_only E (nd_getitem nuke n key);
  hr_setInput : forall n i m, raises_only E (nd_setInput nuke n i m);
  hr_name : forall n, raises_only E (nd_name nuke n);
  hr_Class : forall n, raises_only E (nd_Class nuke n);
  hr_xpos : forall n, raises_only E (nd_xpos nuke n);
  hr_ypos : forall n, raises_only E (nd_ypos nuke n);
  hr_knobs : forall n, raises_only E (nd_knobs nuke n);
  hr_setValue : forall k v, raises_only E (kb_setValue nuke k v);
  hr_kClass : forall k, raises_only E (kb_Class nuke k);
  hr_kvalue : forall k, raises_only E (kb_value nuke k)
}.

(** [wired n i names h cs h']: from session [h], the host resolves each
    of [names] in turn and accepts it as input [i], [i+1], ... of [n];
    [cs] are the calls this takes and [h'] the session they leave. *)
Inductive wired (n : node) : nat -> list pyval -> H -> list hcall -> H -> Prop :=
| wired_nil (i : nat) (h : H) : wired n i [] h [] h
| wired_cons (i : nat) (x : pyval) (rest : list pyval) (m : node)
    (h h1 h2 h3 : H) (cs : list hcall) :
    nk_toNode nuke x h = (Ok (Some m), h1) ->
    nd_setInput nuke n i m h1 = (Ok tt, h2) ->
    wired n (S i) rest h2 cs h3 ->
    wired n i (x :: rest) h (ToNode x :: SetInput n i m :: cs) h3.

(** [named n name h cs h']: the renaming step of [createNode] on the
    host.  A false [name] takes no call; a true one takes the knob
    [name] of [n] and sets it, the host accepting both. *)
Inductive named (n : node) (name : pyval) : H -> list hcall -> H -> Prop :=
| named_skip (h : H) :
    truthy name = false -> named n name h [] h
| named_set (k : knob) (h h1 h2 : H) :
    truthy name = true ->
    nd_getitem nuke n (PStr "name") h = (Ok k, h1) ->
    kb_setValue nuke k name h1 = (Ok tt, h2) ->
    named n name h [GetItem n (PStr "name"); SetValue k name] h2.

(** The three accessors of the knob loop leave session [h] as it is. *)
Definition reads_keep (n : node) (h : H) : Prop :=
  (forall key, snd (nd_getitem nuke n (PStr key) h) = h)
  /\ (forall k, snd (kb_Class nuke k h) = h)
  /\ (forall k, snd (kb_value nuke k h) = h).
End HostBehaviour.

(** [quiet E m]: [m] prints nothing, and raises nothing outside [E]. *)
Definition quiet {H A} (E : exn -> Prop) (m : M H A) : Prop :=
  forall w r w',
    m w = (r, w') ->
    w_out w' = w_out w /\ forall e, r = Err e -> E e.

(** The outcome [r] of a run from output [out] to output [out']: either
    a return with exactly one envelope printed, or an exception of [E]
    with nothing printed. *)
Definition one_response (E : exn -> Prop) (out : list pyval) (r : res unit)
  (out' : list pyval) : Prop :=
  match r with
  | Ok _ => exists v, envelope v /\ out' = (out ++ [v])%list
  | Err e => E e /\ out' = out
  end.

Definition responds {H} (E : exn -> Prop) (m : M H unit) : Prop :=
  forall w r w', m w = (r, w') -> one_response E (w_out w) r (w_out w').

(** [flow E m], for a loop that may respond and return from the
    handler: [Ok true] comes with exactly one envelope printed, [Ok false]
    and exceptions with none. *)
Definition flow {H} (E : exn -> Prop) (m : M H bool) : Prop :=
  forall w r w',
    m w = (r, w') ->
    match r with
    | Ok true =>
        exists v, envelope v /\ w_out w' = (w_out w ++ [v])%list
    | Ok false => w_out w' = w_out w
    | Err e => E e /\ w_out w' = w_out w
    end.

(** What [import nuke] may raise, and the module it may give. *)
Definition import_within {H} (E : exn -> Prop) (imp : import_result H)
  : Prop :=
  match imp with
  | Imported nuke => host_raises nuke E
  | ImportRaises e => E e
  end.

(** [logs P m]: the host calls [m] adds to the log all satisfy [P]. *)
Definition logs {H A} (P : hcall -> Prop) (m : M H A) : Prop :=
  forall w, exists cs,
    w_calls (snd (m w)) = (w_calls w ++ cs)%list /\ Forall P cs.

(** What [try: ... except Exception as e: respond(False, None,
    prefix + str(e))] makes of an [e] raised in its body when the
    session is [h], the log [cs] and the output [out]: the failure is
    printed, or [e] is let through when [except Exception] does not
    catch it. *)
Definition caught {H} (prefix : string) (e : exn) (h : H)
  (cs : list hcall) (out : list pyval) : res unit * world H :=
  if is_Exception (exn_cls e)
  then (Ok tt, World h cs (out ++ [failure (prefix ++ exn_str e)]))
  else (Err e, World h cs out).

(** The payload of a successful [execute]. *)
Definition render_info (nm fs fe path : pyval) : pyval :=
  PDict [("node", nm); ("rendered", PBool true);
         ("frameRange", PDict [("start", fs); ("end", fe)]);
         ("outputPath", path)].
Arguments render_info : simpl never.






(** The message of the outer handler of [main]:
    [f"Error executing command: {str(e)}\n{traceback.format_exc()}"]. *)
Definition crash_report (rt : Runtime) (e : exn) : string :=
  "Error executing command: " ++ exn_str e ++ nl ++ format_exc rt e.

(** The four command names. *)
Definition commands : list string :=
  ["createNode"; "setKnobValue"; "getNode"; "execute"].

(** The host calls open to a command: every command may look nodes up
    and query them; rendering is for [execute], creating and wiring for
    [createNode], setting a knob for [createNode] and [setKnobValue]. *)
Definition call_of (command : string) (c : hcall) : Prop :=
  match c with
  | Execute _ _ _ => command = "execute"
  | CreateNode _ | SetInput _ _ _ => command = "createNode"
  | SetValue _ _ => command = "createNode" \/ command = "setKnobValue"
  | _ => True
  end.

(** The arguments decode: [argv] holds a command; there is no argument
    text and [args] is the empty dict, or [json.loads] returns [args] on
    the text. *)
Definition decodes (rt : Runtime) (argv : list string) (args : pyval)
  : Prop :=
  2 <= List.length argv
  /\ if (2 <? List.length argv)%nat
     then json_loads rt (nth 2 argv "") = Ok args
     else args = PDict [].

(** [starts_with c m]: the first host call of [m] is [c]. *)
Definition starts_with {H A} (c : hcall) (m : M H A) : Prop :=
  forall w, exists cs,
    w_calls (snd (m w)) = (w_calls w ++ c :: cs)%list.

(** Unfolding a handler down to host calls. *)
Ltac expose :=
  unfold set_knob_value, execute, get_node, get_node_try, create_node,
    create_node_try, create_and_name, bind, lift, try_except,
    toNode, Class_of, knobs, getitem, setValue, nuke_execute, knob_value,
    name_of, xpos, ypos, createNode, call;
  cbn [py_contains py_getitem py_get].

(** Case analysis on the first membership test in the goal. *)
Ltac case_in_strs :=
  match goal with
  | |- context [in_strs ?c ?l] => destruct (in_strs c l)
  end.

(** Closing a goal up to the bracketing of the call log. *)
Ltac same_log := cbn; rewrite <- ?app_assoc; reflexivity.


(* ===================================================================== *)
(** * Running the pieces *)
(* ===================================================================== *)

Section Steps.
Variable H : Type.
Variable rt : Runtime.

Lemma respond_failure (c : ascii) (s : string) (w : world H) :
  respond rt false PNone (PStr (String c s)) w
  = (Ok tt,
     World (w_host w) (w_calls w) (w_out w ++ [failure (String c s)])).
Proof. reflexivity. Qed.

Lemma respond_success (data : pyval) (w : world H) :
  serializable data = true ->
  respond rt true data PNone w
  = (Ok tt, World (w_host w) (w_calls w) (w_out w ++ [success data])).
Proof.
  intros S. unfold respond, print_json. cbn [truthy].
  change (serializable (PDict [("success", PBool true); ("data", data)]))
    with (true && (serializable data && true)).
  now rewrite S.
Qed.

Lemma respond_unserializable (data : pyval) (w : world H) :
  serializable data = false ->
  respond rt true data PNone w
  = (Err (builtin_exn rt TypeError (success data)), w).
Proof.
  intros S. unfold respond, print_json. cbn [truthy].
  change (serializable (PDict [("success", PBool true); ("data", data)]))
    with (true && (serializable data && true)).
  now rewrite S.
Qed.

Lemma dict_mem_found (k : string) (d : dict) (v : pyval) :
  dict_lookup k d = Some v -> dict_mem k d = true.
Proof. intros L. unfold dict_mem. now rewrite L. Qed.

Lemma serializable_lookup (d : dict) (k : string) (v : pyval) :
  serializable (PDict d) = true ->
  dict_lookup k d = Some v ->
  serializable v = true.
Proof.
  induction d as [|[k' x] d IH]; cbn; [discriminate|].
  intros S L. apply andb_prop in S as [Sx Sd].
  destruct (String.eqb k k').
  - now injection L as <-.
  - now apply IH.
Qed.
End Steps.

(* ===================================================================== *)
(** * No command, and missing keys *)
(* ===================================================================== *)

(** C2 (as amended).  With no command argument, [main] prints the
    envelope with [success] false, [data] null and the error
    "No command specified", and returns; nothing else happens. *)
Theorem main_no_command (H : Type) (rt : Runtime) (imp : import_result H)
  (argv : list string) (w : world H) :
  List.length argv < 2 ->
  main rt imp argv w
  = (Ok tt,
     World (w_host w) (w_calls w)
       (w_out w ++ [PDict [("success", PBool false); ("data", PNone);
                           ("error", PStr "No command specified")]])).
Proof.
  intros L. unfold main.
  apply Nat.ltb_lt in L. rewrite L. reflexivity.
Qed.

Lemma main_no_command_witness :
  main Mock.runtime (Imported Mock.host) ["nuke_bridge.py"] Mock.start
  = (Ok tt,
     World Mock.studio []
       [PDict [("success", PBool false); ("data", PNone);
               ("error", PStr "No command specified")]]).
Proof.
  apply (@main_no_command _ Mock.runtime (Imported Mock.host)
           ["nuke_bridge.py"] Mock.start).
  simpl. lia.
Defined.

(** C2 (as stated, refuted).  Run with the script name alone, the
    printed envelope is not the two-key object: it carries a third key,
    [data]. *)
Lemma main_no_command_prints_data :
  exists d : dict,
    w_out (snd (main Mock.runtime (Imported Mock.host)
                  ["nuke_bridge.py"] Mock.start)) = [PDict d]
    /\ dict_mem "data" d = true
    /\ PDict d <> PDict [("success", PBool false);
                         ("error", PStr "No command specified")].
Proof.
  eexists. split; [reflexivity|]. split; [reflexivity|]. discriminate.
Qed.

(** C3.  For each of the four commands, when a required key is missing
    from the argument mapping, the handler prints the failure envelope
    naming the first missing key in documented order and returns; the
    session and the log of host calls are as before. *)
Theorem missing_key_reported (H : Type) (rt : Runtime) (nuke : Nuke H)
  (command : string) (d : dict) (key : string) (w : world H) :
  In command ["createNode"; "setKnobValue"; "getNode"; "execute"] ->
  first_missing (required_keys command) d = Some key ->
  dispatch rt nuke command (PDict d) w
  = (Ok tt,
     World (w_host w) (w_calls w)
       (w_out w ++ [failure (key ++ " parameter is required")])).
Proof.
  intros C F.
  destruct C as [<-|[<-|[<-|[<-|[]]]]]; cbn in F;
    unfold dispatch; cbn [String.eqb Ascii.eqb Bool.eqb];
    unfold create_node, set_knob_value, get_node, execute, bind, lift;
    cbn [py_contains].
  - destruct (dict_mem "nodeType" d); [discriminate|].
    injection F as <-. reflexivity.
  - destruct (dict_mem "nodeName" d); cbn in F |- *;
      [|injection F as <-; reflexivity].
    destruct (dict_mem "knobName" d); cbn in F |- *;
      [|injection F as <-; reflexivity].
    destruct (dict_mem "value" d); cbn in F |- *;
      [discriminate|injection F as <-; reflexivity].
  - destruct (dict_mem "nodeName" d); [discriminate|].
    injection F as <-. reflexivity.
  - destruct (dict_mem "writeNodeName" d); cbn in F |- *;
      [|injection F as <-; reflexivity].
    destruct (dict_mem "frameRangeStart" d); cbn in F |- *;
      [|injection F as <-; reflexivity].
    destruct (dict_mem "frameRangeEnd" d); cbn in F |- *;
      [discriminate|injection F as <-; reflexivity].
Qed.

Lemma missing_key_reported_witness :
  dispatch Mock.runtime Mock.host "setKnobValue"
    (PDict [("nodeName", PStr "Grade1"); ("value", PInt 2)]) Mock.start
  = (Ok tt,
     World Mock.studio [] [failure "knobName parameter is required"]).
Proof.
  apply (@missing_key_reported _ Mock.runtime Mock.host "setKnobValue"
           [("nodeName", PStr "Grade1"); ("value", PInt 2)] "knobName"
           Mock.start).
  - simpl. tauto.
  - reflexivity.
Defined.

(* ===================================================================== *)
(** * [set_knob_value] and [execute] on a cooperating host *)
(* ===================================================================== *)

Section Paths.
Variable H : Type.
Variable rt : Runtime.
Variable nuke : Nuke H.

Lemma py_int_raises_Exception (v : pyval) (e : exn) :
  py_int rt v = Err e -> is_Exception (exn_cls e) = true.
Proof.
  destruct v as [| | |f| | | |]; cbn; try discriminate;
    try (intros [= <-]; reflexivity).
  - destruct f; try discriminate; intros [= <-]; reflexivity.
  - destruct (str_to_int rt s); [discriminate|]. intros [= <-]. reflexivity.
Qed.

Lemma py_in_keys_raises_Exception (key : pyval) (ks : list string) (e : exn) :
  py_in_keys rt key ks = Err e -> is_Exception (exn_cls e) = true.
Proof.
  destruct key; cbn; try discriminate; intros [= <-]; reflexivity.
Qed.

Lemma existsb_eqb_In (s : string) (ks : list string) :
  existsb (String.eqb s) ks = true <-> In s ks.
Proof.
  rewrite existsb_exists. split.
  - intros [x [I E]]. apply String.eqb_eq in E. now subst.
  - intros I. exists s. split; [assumption|apply String.eqb_refl].
Qed.

(** C6.  [setKnobValue], with all three keys given.  If the host finds
    no node of that name, the response is the failure naming it and the
    only host call is the lookup.  If the node has no parameter of the
    given name, the response is a failure and the host calls are the
    lookup and the listing of knobs.  Otherwise, the host accepting it,
    the parameter is set to the value and the success payload echoes
    node, knob and value. *)
Theorem set_knob_value_cases (d : dict) (nm kn v : pyval) (w : world H) :
  dict_lookup "nodeName" d = Some nm ->
  dict_lookup "knobName" d = Some kn ->
  dict_lookup "value" d = Some v ->
  (forall h1,
      nk_toNode nuke nm (w_host w) = (Ok None, h1) ->
      set_knob_value rt nuke (PDict d) w
      = (Ok tt,
         World h1 (w_calls w ++ [ToNode nm])
           (w_out w ++ [failure ("Node not found: " ++ py_str rt nm)])))
  /\ (forall n h1 ks h2,
         nk_toNode nuke nm (w_host w) = (Ok (Some n), h1) ->
         nd_knobs nuke n h1 = (Ok ks, h2) ->
         ((forall s, kn = PStr s -> ~ In s ks) ->
          set_knob_value rt nuke (PDict d) w
          = (Ok tt,
             World h2 (w_calls w ++ [ToNode nm; Knobs n])
               (w_out w
                ++ [failure
                      match py_in_keys rt kn ks with
                      | Ok _ => "Knob not found: " ++ py_str rt kn
                      | Err e => "Error setting knob value: " ++ exn_str e
                      end])))
         /\ (forall s k h3 h4,
                kn = PStr s -> In s ks ->
                nd_getitem nuke n kn h2 = (Ok k, h3) ->
                kb_setValue nuke k v h3 = (Ok tt, h4) ->
                serializable (PDict d) = true ->
                set_knob_value rt nuke (PDict d) w
                = (Ok tt,
                   World h4
                     (w_calls w
                      ++ [ToNode nm; Knobs n; GetItem n kn; SetValue k v])
                     (w_out w
                      ++ [success (PDict [("node", nm); ("knob", kn);
                                          ("value", v)])])))).
Proof.
  intros Lnm Lkn Lv.
  expose.
  rewrite (dict_mem_found _ _ Lnm), (dict_mem_found _ _ Lkn),
    (dict_mem_found _ _ Lv), Lnm, Lkn, Lv.
  cbn [negb].
  split.
  - intros h1 T. rewrite T. reflexivity.
  - intros n h1 ks h2 T K. split.
    + intros Absent. rewrite T. cbn. rewrite K. cbn.
      destruct (py_in_keys rt kn ks) as [present|e] eqn:P.
      * destruct present.
        { exfalso. destruct kn; cbn in P; try discriminate.
          injection P as P. apply existsb_eqb_In in P.
          now apply (Absent s). }
        same_log.
      * cbn. rewrite (py_in_keys_raises_Exception _ _ P). same_log.
    + intros s k h3 h4 -> I G S Ser.
      rewrite T. cbn. rewrite K. cbn.
      apply existsb_eqb_In in I. rewrite I. cbn.
      rewrite G. cbn. rewrite S. cbn.
      rewrite respond_success.
      * same_log.
      * cbn. rewrite (serializable_lookup _ _ Ser Lnm),
          (serializable_lookup _ _ Ser Lv). reflexivity.
Qed.

(** C5.  [execute], with all three keys given, on a node the host
    finds.  If its class is not "Write", the response is the failure
    saying so, and the host calls are the lookup and the class query: no
    render.  If it is "Write" and both bounds coerce to integers, the
    third host call is the render of that node over the coerced bounds,
    and the host's render is what runs there: it is applied to the
    session the class query left, and the rest of the run goes on from
    the session and the answer it gives.  If the render raises, that is
    answered (or let through) and the session is the one it left.  If it
    returns, the output path is read from the session it left, and the
    response is the success with the path, or the failure for whatever
    reading the path or printing raised. *)
Theorem execute_requires_Write (d : dict) (nm fs fe cl : pyval) (n : node)
  (h1 h2 : H) (w : world H) :
  dict_lookup "writeNodeName" d = Some nm ->
  dict_lookup "frameRangeStart" d = Some fs ->
  dict_lookup "frameRangeEnd" d = Some fe ->
  nk_toNode nuke nm (w_host w) = (Ok (Some n), h1) ->
  nd_Class nuke n h1 = (Ok cl, h2) ->
  (eq_str cl "Write" = false ->
   execute rt nuke (PDict d) w
   = (Ok tt,
      World h2 (w_calls w ++ [ToNode nm; NodeClass n])
        (w_out w
         ++ [failure ("Node " ++ py_str rt nm ++ " is not a Write node")])))
  /\ (eq_str cl "Write" = true ->
      forall a b,
        py_int rt fs = Ok a ->
        py_int rt fe = Ok b ->
        (exists rest,
            w_calls (snd (execute rt nuke (PDict d) w))
            = (w_calls w
               ++ [ToNode nm; NodeClass n; Execute n a b] ++ rest)%list)
        /\ forall r h3,
            nk_execute nuke n a b h2 = (r, h3) ->
            let cs3 :=
              (w_calls w ++ [ToNode nm; NodeClass n; Execute n a b])%list in
            let prefix := "Error executing write node: " in
            match r with
            | Err e =>
                execute rt nuke (PDict d) w
                = caught prefix e h3 cs3 (w_out w)
            | Ok _ =>
                forall rk h4,
                  nd_getitem nuke n (PStr "file") h3 = (rk, h4) ->
                  match rk with
                  | Err e =>
                      execute rt nuke (PDict d) w
                      = caught prefix e h4
                          (cs3 ++ [GetItem n (PStr "file")]) (w_out w)
                  | Ok k =>
                      forall rv h5,
                        kb_value nuke k h4 = (rv, h5) ->
                        let cs5 :=
                          (cs3 ++ [GetItem n (PStr "file"); KnobValue k])%list
                        in
                        match rv with
                        | Err e =>
                            execute rt nuke (PDict d) w
                            = caught prefix e h5 cs5 (w_out w)
                        | Ok path =>
                            let info := render_info nm fs fe path in
                            execute rt nuke (PDict d) w
                            = (Ok tt,
                               World h5 cs5
                                 (w_out w
                                  ++ [if serializable info
                                      then success info
                                      else
                                        failure
                                          (prefix
                                           ++ builtin_msg rt TypeError
                                                (success info))]))
                        end
                  end
            end).
Proof.
  intros Lnm Lfs Lfe T C.
  expose.
  rewrite (dict_mem_found _ _ Lnm), (dict_mem_found _ _ Lfs),
    (dict_mem_found _ _ Lfe), Lnm, Lfs, Lfe.
  cbn [negb]. rewrite T. cbn. rewrite C. cbn.
  split; intros W.
  - rewrite W. same_log.
  - intros a b A B. rewrite W, A, B. cbn. split.
    + destruct (nk_execute nuke n a b h2) as [[[]|e] h3]; cbn.
      2:{ exists []. destruct (is_Exception (exn_cls e)); same_log. }
      destruct (nd_getitem nuke n (PStr "file") h3) as [[k|e] h4]; cbn.
      2:{ exists [GetItem n (PStr "file")].
          destruct (is_Exception (exn_cls e)); same_log. }
      destruct (kb_value nuke k h4) as [[path|e] h5]; cbn.
      2:{ exists [GetItem n (PStr "file"); KnobValue k].
          destruct (is_Exception (exn_cls e)); same_log. }
      exists [GetItem n (PStr "file"); KnobValue k].
      unfold respond, print_json.
      match goal with
      | |- context [serializable ?v] => destruct (serializable v)
      end; same_log.
    + intros r h3 X. rewrite X. unfold caught.
      destruct r as [[]|e]; cbn.
      2:{ destruct (is_Exception (exn_cls e)); same_log. }
      intros rk h4 G. rewrite G. destruct rk as [k|e]; cbn.
      2:{ destruct (is_Exception (exn_cls e)); same_log. }
      intros rv h5 V. rewrite V. destruct rv as [path|e].
      2:{ cbn. destruct (is_Exception (exn_cls e)); same_log. }
      cbv zeta. fold (render_info nm fs fe path).
      destruct (serializable (render_info nm fs fe path)) eqn:S.
      * rewrite respond_success by exact S. same_log.
      * rewrite respond_unserializable by exact S. same_log.
Qed.

(** C9.  [execute] on a "Write" node the host finds.  When both bounds
    coerce and the host renders and reports the output path, the render
    call carries the coerced integers while [frameRange] in the payload
    carries the two values as given.  When coercing either bound raises,
    the response is the failure carrying that exception's message, and
    the host calls are the lookup and the class query: no render. *)
Theorem execute_frame_range (d : dict) (nm fs fe cl : pyval) (n : node)
  (h1 h2 : H) (w : world H) :
  dict_lookup "writeNodeName" d = Some nm ->
  dict_lookup "frameRangeStart" d = Some fs ->
  dict_lookup "frameRangeEnd" d = Some fe ->
  nk_toNode nuke nm (w_host w) = (Ok (Some n), h1) ->
  nd_Class nuke n h1 = (Ok cl, h2) ->
  eq_str cl "Write" = true ->
  (forall a b h3 k h4 path h5,
      py_int rt fs = Ok a ->
      py_int rt fe = Ok b ->
      nk_execute nuke n a b h2 = (Ok tt, h3) ->
      nd_getitem nuke n (PStr "file") h3 = (Ok k, h4) ->
      kb_value nuke k h4 = (Ok path, h5) ->
      serializable (PDict d) = true ->
      serializable path = true ->
      execute rt nuke (PDict d) w
      = (Ok tt,
         World h5
           (w_calls w
            ++ [ToNode nm; NodeClass n; Execute n a b;
                GetItem n (PStr "file"); KnobValue k])
           (w_out w
            ++ [success
                  (PDict [("node", nm); ("rendered", PBool true);
                          ("frameRange",
                           PDict [("start", fs); ("end", fe)]);
                          ("outputPath", path)])])))
  /\ (forall e,
         py_int rt fs = Err e
         \/ (exists a, py_int rt fs = Ok a /\ py_int rt fe = Err e) ->
         execute rt nuke (PDict d) w
         = (Ok tt,
            World h2 (w_calls w ++ [ToNode nm; NodeClass n])
              (w_out w
               ++ [failure
                     ("Error executing write node: " ++ exn_str e)]))).
Proof.
  intros Lnm Lfs Lfe T C W.
  expose.
  rewrite (dict_mem_found _ _ Lnm), (dict_mem_found _ _ Lfs),
    (dict_mem_found _ _ Lfe), Lnm, Lfs, Lfe.
  cbn [negb]. rewrite T. cbn. rewrite C. cbn. rewrite W. cbn.
  split.
  - intros a b h3 k h4 path h5 A B X G V Sd Sp.
    rewrite A, B. cbn. rewrite X. cbn. rewrite G. cbn. rewrite V. cbn.
    rewrite respond_success.
    + same_log.
    + cbn. rewrite (serializable_lookup _ _ Sd Lnm),
        (serializable_lookup _ _ Sd Lfs), (serializable_lookup _ _ Sd Lfe),
        Sp. reflexivity.
  - intros e [A|[a [A B]]].
    + rewrite A. cbn. rewrite (py_int_raises_Exception _ A). same_log.
    + rewrite A, B. cbn. rewrite (py_int_raises_Exception _ B). same_log.
Qed.
End Paths.

(* ===================================================================== *)
(** * [create_node] *)
(* ===================================================================== *)

Section CreateNode.
Variable H : Type.
Variable rt : Runtime.
Variable nuke : Nuke H.

Lemma create_node_dict (d : dict) (ty : pyval) (w : world H) :
  dict_lookup "nodeType" d = Some ty ->
  create_node rt nuke (PDict d) w
  = create_node_try rt nuke ty (get_or d "name" PNone)
      (get_or d "inputs" (PList [])) w.
Proof.
  intros L. unfold create_node, bind, lift, get_or.
  cbn [py_contains py_getitem py_get].
  rewrite (dict_mem_found _ _ L), L. cbn [negb].
  destruct (dict_lookup "name" d), (dict_lookup "inputs" d); reflexivity.
Qed.

Lemma create_and_name_run (ty name : pyval) (n : node) (h1 h2 : H)
  (cs : list hcall) (w : world H) :
  nk_createNode nuke ty (w_host w) = (Ok n, h1) ->
  named nuke n name h1 cs h2 ->
  create_and_name nuke ty name w
  = (Ok n, World h2 (w_calls w ++ CreateNode ty :: cs) (w_out w)).
Proof.
  intros C N. unfold create_and_name, bind, createNode, getitem, setValue,
    call, ret.
  rewrite C. cbn.
  destruct N as [h F|k h h' h'' T G S].
  - rewrite F. reflexivity.
  - rewrite T. cbn. rewrite G. cbn. rewrite S. cbn.
    rewrite <- !app_assoc. reflexivity.
Qed.

Lemma connect_wired (n : node) (i : nat) (names rest : list pyval) (h h' : H)
  (cs : list hcall) :
  wired nuke n i names h cs h' ->
  forall w, w_host w = h ->
    connect_inputs rt nuke n i (names ++ rest) w
    = connect_inputs rt nuke n (i + List.length names) rest
        (World h' (w_calls w ++ cs) (w_out w)).
Proof.
  induction 1 as [i h|i x names m h h1 h2 h3 cs T S W IH]; intros w E.
  - cbn. rewrite Nat.add_0_r, app_nil_r. subst h. now destruct w.
  - cbn [app connect_inputs]. unfold bind at 1, toNode, call.
    rewrite E, T. cbn. unfold bind at 1, setInput, call. cbn.
    rewrite S. cbn. rewrite IH by reflexivity. cbn.
    rewrite <- !app_assoc, Nat.add_succ_r. reflexivity.
Qed.

Lemma wired_below (n : node) (i : nat) (names : list pyval) (h h' : H)
  (cs : list hcall) :
  wired nuke n i names h cs h' ->
  Forall (wires_below (i + List.length names)) cs.
Proof.
  induction 1 as [i h|i x names m h h1 h2 h3 cs T S W IH].
  - constructor.
  - cbn [List.length]. rewrite Nat.add_succ_r.
    constructor; [exact I|]. constructor; [cbn; lia|exact IH].
Qed.

Lemma wired_wiring (n : node) (i : nat) (names : list pyval) (h h' : H)
  (cs : list hcall) :
  wired nuke n i names h cs h' ->
  exists ms,
    List.length ms = List.length names /\ cs = wiring n i names ms.
Proof.
  induction 1 as [i h|i x names m h h1 h2 h3 cs T S W [ms [L E]]].
  - exists []. split; reflexivity.
  - exists (m :: ms). cbn. split; [now rewrite L|now rewrite E].
Qed.

(** C4.  [createNode] with a list of inputs, the node being created (and
    renamed if a name is given).

    When the host resolves every input name and accepts each wiring,
    the names are looked up and wired in list order, the input at
    position [k] to slot [k]; the four queries follow, whatever they
    answer, and when they answer the response is the success.

    When the host resolves the first [i] input names, accepts each at
    its slot, and does not resolve input [i], the response is the
    failure naming input [i]; the failed lookup is the last host call,
    so nothing is removed or undone; the wirings made are those of the
    inputs before [i] at their slots, so every wiring call is for a slot
    below [i]. *)
Theorem create_node_missing_input (d : dict) (ty : pyval)
  (items : list pyval) (n : node) (h1 h2 : H) (ncs : list hcall)
  (w : world H) :
  dict_lookup "nodeType" d = Some ty ->
  dict_lookup "inputs" d = Some (PList items) ->
  nk_createNode nuke ty (w_host w) = (Ok n, h1) ->
  named nuke n (get_or d "name" PNone) h1 ncs h2 ->
  (forall cs h3,
      wired nuke n 0 items h2 cs h3 ->
      (exists ms,
          List.length ms = List.length items /\ cs = wiring n 0 items ms)
      /\ (exists k,
             w_calls (snd (create_node rt nuke (PDict d) w))
             = (w_calls w
                ++ CreateNode ty
                   :: ncs ++ cs ++ firstn (S k) (info_queries n))%list)
      /\ (forall nv cv xv yv h4 h5 h6 h7,
             nd_name nuke n h3 = (Ok nv, h4) ->
             nd_Class nuke n h4 = (Ok cv, h5) ->
             nd_xpos nuke n h5 = (Ok xv, h6) ->
             nd_ypos nuke n h6 = (Ok yv, h7) ->
             serializable (PList [nv; cv; xv; yv]) = true ->
             create_node rt nuke (PDict d) w
             = (Ok tt,
                World h7
                  (w_calls w
                   ++ CreateNode ty :: ncs ++ cs ++ info_queries n)
                  (w_out w
                   ++ [success
                         (PDict [("name", nv); ("type", cv);
                                 ("position",
                                  PDict [("x", xv); ("y", yv)])])]))))
  /\ (forall pre x post cs h3 h4,
         items = (pre ++ x :: post)%list ->
         wired nuke n 0 pre h2 cs h3 ->
         nk_toNode nuke x h3 = (Ok None, h4) ->
         create_node rt nuke (PDict d) w
         = (Ok tt,
            World h4
              (w_calls w ++ CreateNode ty :: ncs ++ cs ++ [ToNode x])
              (w_out w
               ++ [failure ("Input node not found: " ++ py_str rt x)]))
         /\ Forall (wires_below (List.length pre)) (cs ++ [ToNode x])
         /\ exists ms,
              List.length ms = List.length pre
              /\ cs = wiring n 0 pre ms).
Proof.
  intros Lty Lin C N.
  remember (create_node rt nuke (PDict d) w) as run eqn:Run.
  rewrite (create_node_dict _ w Lty) in Run.
  unfold get_or at 2 in Run. rewrite Lin in Run.
  unfold create_node_try, try_except, bind at 1 in Run.
  rewrite (create_and_name_run ty w C N) in Run.
  unfold bind at 1, lift in Run. cbn [py_iter] in Run.
  unfold bind at 1 in Run.
  split.
  - intros cs h3 W. split; [exact (wired_wiring W)|].
    pose proof (connect_wired [] W
                  (World h2 (w_calls w ++ CreateNode ty :: ncs) (w_out w))
                  eq_refl) as K.
    rewrite app_nil_r in K. rewrite K in Run. clear K.
    cbn [connect_inputs ret] in Run.
    unfold bind, name_of, Class_of, xpos, ypos, call in Run. cbn in Run.
    split.
    + destruct (nd_name nuke n h3) as [[nv|e] h4]; cbn in Run.
      2:{ exists 0. subst run.
          destruct (is_Exception (exn_cls e)); same_log. }
      destruct (nd_Class nuke n h4) as [[cv|e] h5]; cbn in Run.
      2:{ exists 1. subst run.
          destruct (is_Exception (exn_cls e)); same_log. }
      destruct (nd_xpos nuke n h5) as [[xv|e] h6]; cbn in Run.
      2:{ exists 2. subst run.
          destruct (is_Exception (exn_cls e)); same_log. }
      destruct (nd_ypos nuke n h6) as [[yv|e] h7]; cbn in Run.
      2:{ exists 3. subst run.
          destruct (is_Exception (exn_cls e)); same_log. }
      exists 3. subst run. unfold respond, print_json.
      match goal with
      | |- context [serializable ?v] => destruct (serializable v)
      end; same_log.
    + intros nv cv xv yv h4 h5 h6 h7 N1 N2 N3 N4 S.
      rewrite N1 in Run. cbn in Run. rewrite N2 in Run. cbn in Run.
      rewrite N3 in Run. cbn in Run. rewrite N4 in Run. cbn in Run.
      rewrite respond_success in Run.
      * subst run. same_log.
      * cbn in S |- *.
        apply andb_prop in S as [S1 S]. apply andb_prop in S as [S2 S].
        apply andb_prop in S as [S3 S]. apply andb_prop in S as [S4 _].
        now rewrite S1, S2, S3, S4.
  - intros pre x post cs h3 h4 -> W T. split; [|split].
    + rewrite (connect_wired _ W) in Run by reflexivity.
      cbn [connect_inputs] in Run.
      unfold bind at 1, toNode, call in Run. cbn in Run.
      rewrite T in Run. cbn in Run. subst run.
      rewrite <- !app_assoc. reflexivity.
    + apply Forall_app. split.
      * apply (wired_below W).
      * repeat constructor.
    + exact (wired_wiring W).
Qed.

(** ** The log of host calls, whatever the host does *)

Section Logs.
Variable P : hcall -> Prop.

Lemma logs_ret {A} (a : A) : logs P (ret (H:=H) a).
Proof. intros w. exists []. cbn. now rewrite app_nil_r. Qed.

Lemma logs_lift {A} (r : res A) : logs P (lift (H:=H) r).
Proof. intros w. exists []. cbn. now rewrite app_nil_r. Qed.

Lemma logs_call {A} (c : hcall) (op : H -> res A * H) :
  P c -> logs P (call c op).
Proof.
  intros Pc w. exists [c]. unfold call.
  destruct (op (w_host w)). cbn. split; [reflexivity|].
  now constructor.
Qed.

Lemma logs_respond (b : bool) (data err : pyval) :
  logs P (respond (H:=H) rt b data err).
Proof.
  intros w. exists []. unfold respond, print_json.
  destruct (serializable _); cbn; now rewrite app_nil_r.
Qed.

Lemma logs_bind {A B} (m : M H A) (f : A -> M H B) :
  logs P m -> (forall a, logs P (f a)) -> logs P (bind m f).
Proof.
  intros Lm Lf w. unfold bind.
  destruct (Lm w) as [cs1 [E1 F1]].
  destruct (m w) as [[a|e] w1]; cbn in E1.
  - destruct (Lf a w1) as [cs2 [E2 F2]].
    exists (cs1 ++ cs2)%list. rewrite E2, E1, app_assoc.
    split; [reflexivity|]. apply Forall_app. now split.
  - exists cs1. now split.
Qed.

Lemma logs_try_except {A} (body : M H A) (handler : exn -> M H A) :
  logs P body -> (forall e, logs P (handler e)) ->
  logs P (try_except body handler).
Proof.
  intros Lb Lh w. unfold try_except.
  destruct (Lb w) as [cs1 [E1 F1]].
  destruct (body w) as [[a|e] w1]; cbn in E1.
  - exists cs1. now split.
  - destruct (is_Exception (exn_cls e)).
    + destruct (Lh e w1) as [cs2 [E2 F2]].
      exists (cs1 ++ cs2)%list. rewrite E2, E1, app_assoc.
      split; [reflexivity|]. apply Forall_app. now split.
    + exists cs1. now split.
Qed.

Lemma logs_connect_inputs (n : node) (items : list pyval) :
  (forall x, P (ToNode x)) ->
  (forall i m, P (SetInput n i m)) ->
  forall i, logs P (connect_inputs rt nuke n i items).
Proof.
  intros PT PS. induction items as [|x items IH]; intros i; cbn.
  - apply logs_ret.
  - apply logs_bind; [apply logs_call, PT|].
    intros [m|].
    + apply logs_bind; [apply logs_call, PS|]. intros _. apply IH.
    + apply logs_bind; [apply logs_respond|]. intros _. apply logs_ret.
Qed.
End Logs.

(** C10.  [createNode] with a false [name] (absent, null, the empty
    string, ...).  Whatever the host does, no call of the handler reads
    or sets a knob: the renaming step is skipped.  And when the host
    creates the node, wires every input and answers the four queries,
    the payload's name is the answer of [node.name()], made right after
    creation and wiring. *)
Theorem create_node_falsy_name (d : dict) (ty : pyval) (w : world H) :
  dict_lookup "nodeType" d = Some ty ->
  truthy (get_or d "name" PNone) = false ->
  (exists cs,
      w_calls (snd (create_node rt nuke (PDict d) w))
      = (w_calls w ++ cs)%list
      /\ Forall (fun c => is_rename_step c = false) cs)
  /\ (forall n h1 items cs h2 nv h3 cv h4 xv h5 yv h6,
         nk_createNode nuke ty (w_host w) = (Ok n, h1) ->
         py_iter rt (get_or d "inputs" (PList [])) = Ok items ->
         wired nuke n 0 items h1 cs h2 ->
         nd_name nuke n h2 = (Ok nv, h3) ->
         nd_Class nuke n h3 = (Ok cv, h4) ->
         nd_xpos nuke n h4 = (Ok xv, h5) ->
         nd_ypos nuke n h5 = (Ok yv, h6) ->
         serializable (PList [nv; cv; xv; yv]) = true ->
         create_node rt nuke (PDict d) w
         = (Ok tt,
            World h6
              (w_calls w
               ++ CreateNode ty
                  :: cs ++ [NodeName n; NodeClass n; XPos n; YPos n])
              (w_out w
               ++ [success
                     (PDict [("name", nv); ("type", cv);
                             ("position",
                              PDict [("x", xv); ("y", yv)])])]))).
Proof.
  intros Lty F. split.
  - rewrite (create_node_dict _ w Lty). revert w.
    change (logs (fun c => is_rename_step c = false)
              (create_node_try rt nuke ty (get_or d "name" PNone)
                 (get_or d "inputs" (PList [])))).
    unfold create_node_try, create_and_name. rewrite F.
    apply logs_try_except; [|intros e; apply logs_respond].
    apply logs_bind.
    { apply logs_bind; [now apply logs_call|]. intros n.
      apply logs_bind; [apply logs_ret|]. intros _. apply logs_ret. }
    intros n. apply logs_bind; [apply logs_lift|]. intros items.
    apply logs_bind; [now apply logs_connect_inputs|].
    intros [|]; [apply logs_ret|].
    repeat (apply logs_bind; [now apply logs_call|]; intros ?).
    apply logs_respond.
  - intros n h1 items cs h2 nv h3 cv h4 xv h5 yv h6 C I W N1 N2 N3 N4 S.
    rewrite (create_node_dict _ w Lty).
    unfold create_node_try, try_except, bind at 1.
    rewrite (create_and_name_run ty w C (named_skip nuke n _ h1 F)).
    unfold bind at 1, lift. rewrite I. unfold bind at 1.
    rewrite <- (app_nil_r items) at 1.
    rewrite (connect_wired _ W) by reflexivity.
    cbn [connect_inputs ret].
    unfold bind, name_of, Class_of, xpos, ypos, call. cbn.
    rewrite N1. cbn. rewrite N2. cbn. rewrite N3. cbn. rewrite N4. cbn.
    rewrite respond_success.
    + same_log.
    + cbn in S |- *.
      apply andb_prop in S as [S1 S]. apply andb_prop in S as [S2 S].
      apply andb_prop in S as [S3 S]. apply andb_prop in S as [S4 _].
      now rewrite S1, S2, S3, S4.
Qed.
End CreateNode.

(* ===================================================================== *)
(** * [get_node] *)
(* ===================================================================== *)

Lemma dict_lookup_set (acc : dict) (key key' : string) (v : pyval) :
  dict_lookup key (dict_set acc key' v)
  = if String.eqb key key' then Some v else dict_lookup key acc.
Proof.
  induction acc as [|[k x] acc IH]; cbn.
  - reflexivity.
  - destruct (String.eqb_spec key' k) as [->|N1]; cbn.
    + destruct (String.eqb key k); reflexivity.
    + rewrite IH.
      destruct (String.eqb_spec key k) as [->|N2]; [|reflexivity].
      destruct (String.eqb_spec k key') as [->|_]; [now elim N1|reflexivity].
Qed.

Lemma snapshot_lookup (knob_of : string -> res knob)
  (kind_of value_of : knob -> res pyval) (key : string) (ks : list string) :
  forall acc,
    dict_lookup key (fold_left (snapshot_step knob_of kind_of value_of) ks acc)
    = match (if existsb (String.eqb key) ks
             then snapshot_read knob_of kind_of value_of key
             else None) with
      | Some v => Some v
      | None => dict_lookup key acc
      end.
Proof.
  induction ks as [|k ks IH]; intros acc; cbn [fold_left existsb].
  - reflexivity.
  - rewrite IH. unfold snapshot_step.
    destruct (String.eqb_spec key k) as [->|N]; cbn [orb].
    + destruct (snapshot_read knob_of kind_of value_of k) as [v|] eqn:R.
      * rewrite dict_lookup_set, String.eqb_refl.
        now destruct (existsb (String.eqb k) ks).
      * now destruct (existsb (String.eqb k) ks).
    + assert (E : dict_lookup key
                    match snapshot_read knob_of kind_of value_of k with
                    | Some v => dict_set acc k v
                    | None => acc
                    end
                  = dict_lookup key acc).
      { destruct (snapshot_read knob_of kind_of value_of k); [|reflexivity].
        rewrite dict_lookup_set. now destruct (String.eqb_spec key k). }
      now rewrite E.
Qed.

Section GetNode.
Variable H : Type.
Variable rt : Runtime.
Variable nuke : Nuke H.

(** The knob loop never raises and prints nothing, whatever the host
    does. *)
Lemma read_knob_total (n : node) (acc : dict) (key : string) (w : world H) :
  exists acc' w',
    read_knob nuke n acc key w = (Ok acc', w') /\ w_out w' = w_out w.
Proof.
  unfold read_knob, try_bare, bind, getitem, knob_Class, knob_value, call,
    ret.
  destruct (nd_getitem nuke n (PStr key) (w_host w)) as [[k|e] h1]; cbn -[in_strs];
    [|eauto].
  destruct (kb_Class nuke k h1) as [[c|e] h2]; cbn -[in_strs]; [|eauto].
  case_in_strs; cbn -[in_strs].
  { destruct (kb_value nuke k h2) as [[v|e] h3]; cbn -[in_strs]; eauto. }
  destruct (kb_Class nuke k h2) as [[c'|e] h3]; cbn -[in_strs]; [|eauto].
  case_in_strs; cbn -[in_strs]; [|eauto].
  destruct (kb_value nuke k h3) as [[v|e] h4]; cbn -[in_strs]; eauto.
Qed.

Lemma collect_knobs_total (n : node) (ks : list string) :
  forall acc w,
    exists kn w',
      collect_knobs nuke n ks acc w = (Ok kn, w') /\ w_out w' = w_out w.
Proof.
  induction ks as [|key ks IH]; intros acc w; cbn.
  - now exists acc, w.
  - destruct (read_knob_total n acc key w) as [acc' [w' [E O]]].
    unfold bind. rewrite E.
    destruct (IH acc' w') as [kn [w'' [E' O']]].
    exists kn, w''. split; [assumption|congruence].
Qed.

Section Reads.
Variable n : node.
Variable h : H.
Hypothesis keep : reads_keep nuke n h.

Let knob_of (key : string) : res knob := fst (nd_getitem nuke n (PStr key) h).
Let kind_of (k : knob) : res pyval := fst (kb_Class nuke k h).
Let value_of (k : knob) : res pyval := fst (kb_value nuke k h).

Lemma in_scalar_kinds (c : pyval) :
  in_strs c scalar_kinds
  = in_strs c ["String_Knob"; "File_Knob"; "Text_Knob"]
    || in_strs c ["Int_Knob"; "Double_Knob"; "Boolean_Knob"; "XY_Knob"].
Proof.
  unfold in_strs, scalar_kinds. now rewrite <- existsb_app.
Qed.

Lemma read_knob_keeps (acc : dict) (key : string) (w : world H) :
  w_host w = h ->
  exists cs,
    read_knob nuke n acc key w
    = (Ok (snapshot_step knob_of kind_of value_of acc key),
       World h cs (w_out w)).
Proof.
  intros E. destruct keep as [G [C V]].
  unfold read_knob, try_bare, bind, getitem, knob_Class, knob_value, call,
    ret, snapshot_step, snapshot_read, knob_of, kind_of, value_of.
  rewrite E. specialize (G key).
  destruct (nd_getitem nuke n (PStr key) h) as [[k|e] h1];
    cbn -[in_strs] in G |- *; subst h1; [|eauto].
  specialize (C k). specialize (V k).
  destruct (kb_Class nuke k h) as [[c|e] h2] eqn:Ck;
    cbn -[in_strs] in C |- *; subst h2; [|eauto].
  rewrite in_scalar_kinds.
  destruct (in_strs c ["String_Knob"; "File_Knob"; "Text_Knob"]);
    cbn -[in_strs].
  { destruct (kb_value nuke k h) as [[v|e] h3]; cbn -[in_strs] in V |- *;
      subst h3; eauto. }
  rewrite Ck. cbn -[in_strs].
  case_in_strs; cbn -[in_strs]; [|eauto].
  destruct (kb_value nuke k h) as [[v|e] h3]; cbn -[in_strs] in V |- *;
    subst h3; eauto.
Qed.

Lemma collect_knobs_keeps (ks : list string) :
  forall acc w,
    w_host w = h ->
    exists cs,
      collect_knobs nuke n ks acc w
      = (Ok (fold_left (snapshot_step knob_of kind_of value_of) ks acc),
         World h cs (w_out w)).
Proof.
  induction ks as [|key ks IH]; intros acc w E; cbn.
  - exists (w_calls w). unfold ret. subst h. now destruct w.
  - destruct (read_knob_keeps acc key w E) as [cs R].
    unfold bind. rewrite R.
    destruct (IH (snapshot_step knob_of kind_of value_of acc key)
                (World h cs (w_out w)) eq_refl) as [cs' R'].
    exists cs'. exact R'.
Qed.
End Reads.

(** [get_node] up to the knob loop, on a host that finds the node and
    answers the five queries. *)
Lemma get_node_found (d : dict) (nm nv cv xv yv : pyval) (n : node)
  (ks : list string) (h1 h2 h3 h4 h5 h : H) (w : world H) :
  dict_lookup "nodeName" d = Some nm ->
  nk_toNode nuke nm (w_host w) = (Ok (Some n), h1) ->
  nd_name nuke n h1 = (Ok nv, h2) ->
  nd_Class nuke n h2 = (Ok cv, h3) ->
  nd_xpos nuke n h3 = (Ok xv, h4) ->
  nd_ypos nuke n h4 = (Ok yv, h5) ->
  nd_knobs nuke n h5 = (Ok ks, h) ->
  forall kn w2,
    collect_knobs nuke n ks []
      (World h
         (w_calls w
          ++ [ToNode nm; NodeName n; NodeClass n; XPos n; YPos n; Knobs n])
         (w_out w))
    = (Ok kn, w2) ->
    serializable (PList [nv; cv; xv; yv; PDict kn]) = true ->
    get_node rt nuke (PDict d) w
    = (Ok tt,
       World (w_host w2) (w_calls w2)
         (w_out w2 ++ [success (node_info nv cv xv yv kn)])).
Proof.
  intros Lnm T N1 N2 N3 N4 K kn w2 R S.
  expose.
  rewrite (dict_mem_found _ _ Lnm), Lnm. cbn [negb].
  unfold knobs, call.
  rewrite T. cbn. rewrite N1. cbn. rewrite N2. cbn. rewrite N3. cbn.
  rewrite N4. cbn. rewrite K. cbn.
  rewrite <- !app_assoc. cbn [app]. rewrite R. cbn.
  rewrite respond_success; [reflexivity|].
  cbn in S |- *.
  apply andb_prop in S as [S1 S]. apply andb_prop in S as [S2 S].
  apply andb_prop in S as [S3 S]. apply andb_prop in S as [S4 S].
  apply andb_prop in S as [S5 _].
  now rewrite S1, S2, S3, S4, S5.
Qed.

(** C7.  [getNode] on a node the host finds, the host answering the
    queries for name, class, position and knob names.

    Whatever the host then does in the knob loop (answers of any kind,
    exceptions of any class), the loop ends normally with a knob map,
    and the response is the success carrying name, class, position and
    that map (the values being ones [json.dumps] accepts).

    When moreover the three accessors of the knob loop leave the session
    as it is, that knob map is the snapshot of the specification: a
    parameter is in it, with its value, exactly when it can be read and
    its reported kind is one of the seven scalar kinds; parameters of
    another kind, and parameters whose reading raises, are left out. *)
Theorem get_node_snapshot (d : dict) (nm nv cv xv yv : pyval) (n : node)
  (ks : list string) (h1 h2 h3 h4 h5 h : H) (w : world H) :
  dict_lookup "nodeName" d = Some nm ->
  nk_toNode nuke nm (w_host w) = (Ok (Some n), h1) ->
  nd_name nuke n h1 = (Ok nv, h2) ->
  nd_Class nuke n h2 = (Ok cv, h3) ->
  nd_xpos nuke n h3 = (Ok xv, h4) ->
  nd_ypos nuke n h4 = (Ok yv, h5) ->
  nd_knobs nuke n h5 = (Ok ks, h) ->
  let w1 :=
    World h
      (w_calls w
       ++ [ToNode nm; NodeName n; NodeClass n; XPos n; YPos n; Knobs n])
      (w_out w) in
  (exists kn w2,
      collect_knobs nuke n ks [] w1 = (Ok kn, w2)
      /\ (serializable (PList [nv; cv; xv; yv; PDict kn]) = true ->
          fst (get_node rt nuke (PDict d) w) = Ok tt
          /\ w_out (snd (get_node rt nuke (PDict d) w))
             = (w_out w ++ [success (node_info nv cv xv yv kn)])%list))
  /\ (reads_keep nuke n h ->
      let knob_of := fun key => fst (nd_getitem nuke n (PStr key) h) in
      let kind_of := fun k => fst (kb_Class nuke k h) in
      let value_of := fun k => fst (kb_value nuke k h) in
      let kn := snapshot knob_of kind_of value_of ks in
      fst (collect_knobs nuke n ks [] w1) = Ok kn
      /\ (forall key,
             dict_lookup key kn
             = if existsb (String.eqb key) ks
               then snapshot_read knob_of kind_of value_of key
               else None)).
Proof.
  intros Lnm T N1 N2 N3 N4 K w1.
  pose proof (get_node_found d w Lnm T N1 N2 N3 N4 K) as F.
  fold w1 in F. split.
  - destruct (collect_knobs_total n ks [] w1) as [kn [w2 [R O]]].
    exists kn, w2. split; [exact R|].
    intros S. rewrite (F kn w2 R S), O. split; reflexivity.
  - intros keep knob_of kind_of value_of kn.
    subst knob_of kind_of value_of kn. unfold snapshot. split.
    + destruct (collect_knobs_keeps keep ks [] w1 eq_refl) as [cs' R].
      now rewrite R.
    + intros key. rewrite snapshot_lookup.
      destruct (existsb (String.eqb key) ks); [|reflexivity].
      now destruct (snapshot_read _ _ _ key).
Qed.
End GetNode.

(* ===================================================================== *)
(** * One envelope per run *)
(* ===================================================================== *)

Section Discipline.
Variable H : Type.
Variable rt : Runtime.
Variable E : exn -> Prop.
Hypothesis E_Exception : forall e, is_Exception (exn_cls e) = true -> E e.

Lemma quiet_ret {A} (a : A) : quiet E (ret (H:=H) a).
Proof. intros w r w' [= <- <-]. split; [reflexivity|discriminate]. Qed.

Lemma quiet_lift {A} (r : res A) :
  (forall e, r = Err e -> is_Exception (exn_cls e) = true) ->
  quiet E (lift (H:=H) r).
Proof.
  intros R w r' w' [= <- <-]. split; [reflexivity|].
  intros e X. apply E_Exception, R, X.
Qed.

Lemma quiet_call {A} (c : hcall) (op : H -> res A * H) :
  raises_only E op -> quiet E (call c op).
Proof.
  intros R w r w'. unfold call.
  destruct (op (w_host w)) as [r0 h'] eqn:X. intros [= <- <-].
  split; [reflexivity|]. intros e ->. exact (R _ _ _ X).
Qed.

Lemma quiet_bind {A B} (m : M H A) (f : A -> M H B) :
  quiet E m -> (forall a, quiet E (f a)) -> quiet E (bind m f).
Proof.
  intros Qm Qf w r w'. unfold bind.
  destruct (m w) as [[a|e] w1] eqn:Y; intros X;
    destruct (Qm _ _ _ Y) as [O R].
  - destruct (Qf a _ _ _ X) as [O' R']. split; [congruence|exact R'].
  - injection X as <- <-. split; [exact O|].
    intros e' [= <-]. now apply R.
Qed.

Lemma responds_failure (c : ascii) (s : string) :
  responds E (respond (H:=H) rt false PNone (PStr (String c s))).
Proof.
  intros w r w'. rewrite respond_failure. intros [= <- <-]. cbn.
  eexists. split; [apply envelope_failure|reflexivity].
Qed.

Lemma responds_success (data : pyval) :
  responds E (respond (H:=H) rt true data PNone).
Proof.
  intros w r w'. destruct (serializable data) eqn:S.
  - rewrite (respond_success rt _ w S). intros [= <- <-]. cbn.
    eexists. split; [apply envelope_success|reflexivity].
  - rewrite (respond_unserializable rt _ w S). intros [= <- <-]. cbn.
    split; [now apply E_Exception|reflexivity].
Qed.

Lemma responds_bind {A} (m : M H A) (f : A -> M H unit) :
  quiet E m -> (forall a, responds E (f a)) -> responds E (bind m f).
Proof.
  intros Qm Rf w r w'. unfold bind.
  destruct (m w) as [[a|e] w1] eqn:Y; intros X;
    destruct (Qm _ _ _ Y) as [O R].
  - rewrite <- O. exact (Rf a _ _ _ X).
  - injection X as <- <-. split; [now apply R|exact O].
Qed.

Lemma responds_after_flow (m : M H bool) (f : bool -> M H unit) :
  flow E m -> f true = ret tt -> responds E (f false) ->
  responds E (bind m f).
Proof.
  intros Fm Ft Rf w r w'. unfold bind.
  destruct (m w) as [[[|]|e] w1] eqn:Y; intros X;
    pose proof (Fm _ _ _ Y) as F.
  - rewrite Ft in X. injection X as <- <-. exact F.
  - rewrite <- F. exact (Rf _ _ _ X).
  - injection X as <- <-. exact F.
Qed.

Lemma responds_try_except (body : M H unit) (handler : exn -> M H unit) :
  responds E body -> (forall e, responds E (handler e)) ->
  responds E (try_except body handler).
Proof.
  intros Rb Rh w r w'. unfold try_except.
  destruct (body w) as [[[]|e] w1] eqn:Y; intros X;
    pose proof (Rb _ _ _ Y) as B.
  - injection X as <- <-. exact B.
  - destruct B as [Ee O].
    destruct (is_Exception (exn_cls e)).
    + rewrite <- O. exact (Rh e _ _ _ X).
    + injection X as <- <-. now split.
Qed.

(** ** The built-ins raise within [Exception] *)

Lemma py_contains_raises (key : string) (args : pyval) (e : exn) :
  py_contains rt key args = Err e -> is_Exception (exn_cls e) = true.
Proof. destruct args; cbn; try discriminate; now intros [= <-]. Qed.

Lemma py_getitem_raises (args : pyval) (key : string) (e : exn) :
  py_getitem rt args key = Err e -> is_Exception (exn_cls e) = true.
Proof.
  destruct args; cbn; try (now intros [= <-]).
  destruct (dict_lookup key d); [discriminate|now intros [= <-]].
Qed.

Lemma py_get_raises (args : pyval) (key : string) (v : pyval) (e : exn) :
  py_get rt args key v = Err e -> is_Exception (exn_cls e) = true.
Proof.
  destruct args; cbn; try (now intros [= <-]).
  destruct (dict_lookup key d); discriminate.
Qed.

Lemma py_iter_raises (v : pyval) (e : exn) :
  py_iter rt v = Err e -> is_Exception (exn_cls e) = true.
Proof. destruct v; cbn; try discriminate; now intros [= <-]. Qed.

(** ** The handlers *)

Section OnHost.
Variable nuke : Nuke H.
Hypothesis host_within : host_raises nuke E.

Lemma flow_connect_inputs (n : node) (items : list pyval) :
  forall i, flow E (connect_inputs rt nuke n i items).
Proof.
  induction items as [|x items IH]; intros i w r w';
    cbn [connect_inputs].
  - now intros [= <- <-].
  - unfold bind at 1, toNode, call.
    destruct (nk_toNode nuke x (w_host w)) as [[[m|]|e] h1] eqn:T.
    + unfold bind at 1, setInput, call. cbn [w_host].
      destruct (nd_setInput nuke n i m h1) as [[[]|e] h2] eqn:W.
      * intros X. exact (IH _ _ _ _ X).
      * intros [= <- <-].
        split; [exact (hr_setInput host_within _ _ _ _ W)|reflexivity].
    + unfold bind. cbn [append]. rewrite respond_failure.
      intros [= <- <-]. cbn.
      eexists. split; [apply envelope_failure|reflexivity].
    + intros [= <- <-].
      split; [exact (hr_toNode host_within _ _ T)|reflexivity].
Qed.

Lemma quiet_collect_knobs (n : node) (ks : list string) (acc : dict) :
  quiet E (collect_knobs nuke n ks acc).
Proof.
  intros w r w' X.
  destruct (collect_knobs_total nuke n ks acc w) as [kn [w1 [Y O]]].
  rewrite Y in X. injection X as <- <-. split; [exact O|discriminate].
Qed.

(** Discharging the routine obligations of a handler. *)
Ltac routine :=
  repeat first
    [ apply responds_failure
    | apply responds_success
    | apply quiet_ret
    | apply quiet_collect_knobs
    | apply quiet_lift;
      first [ apply py_contains_raises | apply py_getitem_raises
            | apply py_get_raises | apply py_iter_raises
            | apply py_int_raises_Exception
            | apply py_in_keys_raises_Exception ]
    | apply quiet_call; apply host_within
    | apply responds_try_except; [|intros ?]
    | apply responds_after_flow; [apply flow_connect_inputs|reflexivity|]
    | apply responds_bind; [|intros ?]
    | apply quiet_bind; [|intros ?]
    | match goal with
      | |- responds _ (if ?b then _ else _) => destruct b
      | |- quiet _ (if ?b then _ else _) => destruct b
      | |- responds _ (match ?o with Some _ => _ | None => _ end) =>
          destruct o
      end ].

Lemma create_node_responds (args : pyval) :
  responds E (create_node rt nuke args).
Proof.
  unfold create_node, create_node_try, create_and_name,
    createNode, getitem, setValue, name_of, Class_of, xpos, ypos.
  routine.
Qed.

Lemma set_knob_value_responds (args : pyval) :
  responds E (set_knob_value rt nuke args).
Proof.
  unfold set_knob_value, toNode, knobs, getitem, setValue. routine.
Qed.

Lemma get_node_responds (args : pyval) :
  responds E (get_node rt nuke args).
Proof.
  unfold get_node, get_node_try, toNode, name_of, Class_of, xpos, ypos,
    knobs.
  routine.
Qed.

Lemma execute_responds (args : pyval) :
  responds E (execute rt nuke args).
Proof.
  unfold execute, toNode, Class_of, nuke_execute, getitem, knob_value.
  routine.
Qed.

Lemma dispatch_responds (command : string) (args : pyval) :
  responds E (dispatch rt nuke command args).
Proof.
  unfold dispatch.
  repeat match goal with
         | |- responds _ (if ?b then _ else _) => destruct b
         end.
  - apply create_node_responds.
  - apply set_knob_value_responds.
  - apply get_node_responds.
  - apply execute_responds.
  - apply responds_failure.
Qed.
End OnHost.

Lemma run_command_responds (imp : import_result H) (command : string)
  (args : pyval) :
  import_within E imp ->
  responds (fun e => E e /\ is_Exception (exn_cls e) = false)
    (run_command rt imp command args).
Proof.
  intros I w r w'. unfold run_command, try_except.
  match goal with
  | |- (let (_, _) := ?body w in _) = _ -> _ =>
      assert (B : responds E body)
  end.
  { destruct imp as [nuke|e]; cbn in I.
    - now apply dispatch_responds.
    - destruct (is_ImportError (exn_cls e)).
      + apply responds_failure.
      + intros w0 r0 w0' [= <- <-]. now split. }
  match goal with
  | |- (let (_, _) := ?body w in _) = _ -> _ =>
      destruct (body w) as [[[]|e] w1] eqn:Y
  end; intros X; pose proof (B _ _ _ Y) as O.
  - injection X as <- <-. exact O.
  - destruct O as [Ee O].
    destruct (is_Exception (exn_cls e)) eqn:C.
    + cbn [append] in X. rewrite respond_failure in X.
      injection X as <- <-. cbn. rewrite O.
      eexists. split; [apply envelope_failure|reflexivity].
    + injection X as <- <-. cbn. now repeat split.
Qed.

(** Every run of [main] either returns with exactly one envelope
    printed, or lets an exception out with nothing printed; the
    exception is then one that [except Exception] does not catch, or one
    that [json.loads] raised and that is not a [JSONDecodeError]. *)
Lemma main_outcome (imp : import_result H) (argv : list string) :
  import_within E imp ->
  responds
    (fun e =>
       (E e /\ is_Exception (exn_cls e) = false)
       \/ (2 < List.length argv
           /\ json_loads rt (nth 2 argv "") = Err e
           /\ is_JSONDecodeError (exn_cls e) = false))
    (main rt imp argv).
Proof.
  intros I w r w'. unfold main.
  assert (R : forall args,
             responds
               (fun e =>
                  (E e /\ is_Exception (exn_cls e) = false)
                  \/ (2 < List.length argv
                      /\ json_loads rt (nth 2 argv "") = Err e
                      /\ is_JSONDecodeError (exn_cls e) = false))
               (run_command rt imp (nth 1 argv "") args)).
  { intros args w0 r0 w0' X.
    pose proof (@run_command_responds imp _ _ I _ _ _ X) as O.
    destruct r0; cbn in O |- *; [exact O|].
    destruct O as [O1 O2]. split; [now left|exact O2]. }
  destruct (List.length argv <? 2)%nat.
  { rewrite respond_failure. intros [= <- <-]. cbn.
    eexists. split; [apply envelope_failure|reflexivity]. }
  destruct (2 <? List.length argv)%nat eqn:L; [|apply R].
  apply Nat.ltb_lt in L.
  destruct (json_loads rt (nth 2 argv "")) as [args|e] eqn:J; [apply R|].
  destruct (is_JSONDecodeError (exn_cls e)) eqn:D.
  - cbn [append]. rewrite respond_failure. intros [= <- <-]. cbn.
    eexists. split; [apply envelope_failure|reflexivity].
  - intros [= <- <-]. cbn. split; [now right|reflexivity].
Qed.
End Discipline.

(* ===================================================================== *)
(** * Where an escaping exception comes from *)
(* ===================================================================== *)

Section Origin.
Variable H : Type.
Variable rt : Runtime.
Variable nuke : Nuke H.












End Origin.

Lemma envelope_has_shape (v : pyval) : envelope v -> envelope_shape v.
Proof.
  intros [msg|data].
  - exists [("success", PBool false); ("data", PNone); ("error", PStr msg)],
      false, PNone.
    cbn. repeat split; reflexivity.
  - exists [("success", PBool true); ("data", data)], true, data.
    cbn. repeat split; discriminate.
Qed.

Lemma host_raises_anything (H : Type) (nuke : Nuke H) :
  host_raises nuke (fun _ => True).
Proof. constructor; intros; exact (fun _ _ _ _ => I). Qed.

(** C8.  Every envelope a run of [main] prints has the keys [success]
    and [data], with [data] null when [success] is false, and has the
    key [error] exactly when [success] is false.  (A run prints at most
    one.) *)
Theorem envelopes_well_formed (H : Type) (rt : Runtime)
  (imp : import_result H) (argv : list string) (w : world H) :
  exists vs,
    w_out (snd (main rt imp argv w)) = (w_out w ++ vs)%list
    /\ Forall envelope_shape vs
    /\ List.length vs <= 1.
Proof.
  assert (I : import_within (fun _ => True) imp).
  { destruct imp; cbn; [apply host_raises_anything|exact I]. }
  destruct (main rt imp argv w) as [r w'] eqn:X.
  pose proof (@main_outcome H rt (fun _ => True) (fun _ _ => Logic.I)
                imp argv I w r w' X) as O.
  destruct r as [[]|e]; cbn in O |- *.
  - destruct O as [v [Ev O]]. exists [v]. rewrite O.
    repeat split; [|cbn; lia].
    constructor; [now apply envelope_has_shape|constructor].
  - destruct O as [_ O]. exists []. rewrite O, app_nil_r.
    repeat split; [constructor|cbn; lia].
Qed.



(* ===================================================================== *)
(** * Runs on the scripted session *)
(* ===================================================================== *)

(** The accessors of the scripted host leave the session as it is. *)
Lemma mock_reads_keep (n : node) (h : Mock.session) :
  reads_keep Mock.host n h.
Proof.
  repeat split; intros; cbn; unfold Mock.on_knob, Mock.on_node;
    repeat match goal with
           | |- context [match ?x with _ => _ end] => destruct x
           end; reflexivity.
Qed.



(** C5, four runs: [execute] on a colour node; on the render node, where
    the third call is the render of frames 1 to 12, and after which the
    session holds that render and nothing else; on the render node of a
    host that refuses to render; and on the render node of a host that
    is interrupted while rendering. *)
Lemma execute_requires_Write_witness :
  execute Mock.runtime Mock.host
    (PDict (Mock.render_args "Grade1" Mock.one_and_a_half)) Mock.start
  = (Ok tt,
     World Mock.studio [ToNode (PStr "Grade1"); NodeClass (NodeRef 1)]
       [failure "Node Grade1 is not a Write node"])
  /\ (exists rest,
        w_calls (snd (execute Mock.runtime Mock.host
                        (PDict (Mock.render_args "Write1"
                                  Mock.one_and_a_half))
                        Mock.start))
        = ([ToNode (PStr "Write1"); NodeClass (NodeRef 2);
            Execute (NodeRef 2) 1 12] ++ rest)%list)
  /\ (exists h,
        execute Mock.runtime Mock.host
          (PDict (Mock.render_args "Write1" Mock.one_and_a_half))
          Mock.start
        = (Ok tt,
           World h
             [ToNode (PStr "Write1"); NodeClass (NodeRef 2);
              Execute (NodeRef 2) 1 12; GetItem (NodeRef 2) (PStr "file");
              KnobValue (KnobRef (NodeRef 2) 1)]
             [success
                (render_info (PStr "Write1") Mock.one_and_a_half
                   (PStr "12") (PStr "/out/b.%04d.exr"))])
        /\ Mock.renders (w_host Mock.start) = []
        /\ Mock.renders h = [(NodeRef 2, 1%Z, 12%Z)])
  /\ execute Mock.runtime Mock.refusing
       (PDict (Mock.render_args "Write1" Mock.one_and_a_half)) Mock.start
     = (Ok tt,
        World Mock.studio
          [ToNode (PStr "Write1"); NodeClass (NodeRef 2);
           Execute (NodeRef 2) 1 12]
          [failure "Error executing write node: refused"])
  /\ execute Mock.runtime Mock.interrupted
       (PDict (Mock.render_args "Write1" Mock.one_and_a_half)) Mock.start
     = (Err Mock.interrupt,
        World Mock.studio
          [ToNode (PStr "Write1"); NodeClass (NodeRef 2);
           Execute (NodeRef 2) 1 12]
          []).
Proof.
  split; [|split; [|split; [|split]]].
  - edestruct execute_requires_Write
      with (rt := Mock.runtime) (nuke := Mock.host)
           (d := Mock.render_args "Grade1" Mock.one_and_a_half)
           (w := Mock.start)
      as [A _]; [reflexivity..|].
    apply A. reflexivity.
  - edestruct execute_requires_Write
      with (rt := Mock.runtime) (nuke := Mock.host)
           (d := Mock.render_args "Write1" Mock.one_and_a_half)
           (w := Mock.start)
      as [_ B]; [reflexivity..|].
    destruct (B eq_refl 1%Z 12%Z) as [B1 _]; [reflexivity..|].
    exact B1.
  - edestruct execute_requires_Write
      with (rt := Mock.runtime) (nuke := Mock.host)
           (d := Mock.render_args "Write1" Mock.one_and_a_half)
           (w := Mock.start)
      as [_ B]; [reflexivity..|].
    destruct (B eq_refl 1%Z 12%Z) as [_ B2]; [reflexivity..|].
    eexists. split; [|split].
    + exact (B2 _ _ eq_refl _ _ eq_refl _ _ eq_refl).
    + reflexivity.
    + reflexivity.
  - edestruct execute_requires_Write
      with (rt := Mock.runtime) (nuke := Mock.refusing)
           (d := Mock.render_args "Write1" Mock.one_and_a_half)
           (w := Mock.start)
      as [_ B]; [reflexivity..|].
    destruct (B eq_refl 1%Z 12%Z) as [_ B2]; [reflexivity..|].
    exact (B2 _ _ eq_refl).
  - edestruct execute_requires_Write
      with (rt := Mock.runtime) (nuke := Mock.interrupted)
           (d := Mock.render_args "Write1" Mock.one_and_a_half)
           (w := Mock.start)
      as [_ B]; [reflexivity..|].
    destruct (B eq_refl 1%Z 12%Z) as [_ B2]; [reflexivity..|].
    exact (B2 _ _ eq_refl).
Defined.

(** C9, two runs: frames 1.5 to "12" render as 1 to 12 and are echoed
    as given; a first frame that is no number stops before the render. *)
Lemma execute_frame_range_witness :
  (exists h,
      execute Mock.runtime Mock.host
        (PDict (Mock.render_args "Write1" Mock.one_and_a_half)) Mock.start
      = (Ok tt,
         World h
           [ToNode (PStr "Write1"); NodeClass (NodeRef 2);
            Execute (NodeRef 2) 1 12; GetItem (NodeRef 2) (PStr "file");
            KnobValue (KnobRef (NodeRef 2) 1)]
           [success
              (PDict [("node", PStr "Write1"); ("rendered", PBool true);
                      ("frameRange",
                       PDict [("start", Mock.one_and_a_half);
                              ("end", PStr "12")]);
                      ("outputPath", PStr "/out/b.%04d.exr")])])
      /\ Mock.renders h = [(NodeRef 2, 1%Z, 12%Z)])
  /\ execute Mock.runtime Mock.host
       (PDict (Mock.render_args "Write1" (PStr "first"))) Mock.start
     = (Ok tt,
        World Mock.studio [ToNode (PStr "Write1"); NodeClass (NodeRef 2)]
          [failure "Error executing write node: bad operand"]).
Proof.
  split.
  - eexists. split.
    + edestruct execute_frame_range
        with (rt := Mock.runtime) (nuke := Mock.host)
             (d := Mock.render_args "Write1" Mock.one_and_a_half)
             (w := Mock.start)
        as [A _]; [reflexivity..|].
      eapply A; reflexivity.
    + reflexivity.
  - edestruct execute_frame_range
      with (rt := Mock.runtime) (nuke := Mock.host)
           (d := Mock.render_args "Write1" (PStr "first"))
           (w := Mock.start)
      as [_ B]; [reflexivity..|].
    apply (B (builtin_exn Mock.runtime ValueError (PStr "first"))).
    left. reflexivity.
Defined.

(** C6, three runs: an unknown node, an unknown knob, and a knob that
    is set and reads back the new value. *)
Lemma set_knob_value_cases_witness :
  set_knob_value Mock.runtime Mock.host
    (PDict (Mock.set_args "Nope" "mix")) Mock.start
  = (Ok tt,
     World Mock.studio [ToNode (PStr "Nope")]
       [failure "Node not found: Nope"])
  /\ set_knob_value Mock.runtime Mock.host
       (PDict (Mock.set_args "Grade1" "gain")) Mock.start
     = (Ok tt,
        World Mock.studio [ToNode (PStr "Grade1"); Knobs (NodeRef 1)]
          [failure "Knob not found: gain"])
  /\ exists h,
       set_knob_value Mock.runtime Mock.host
         (PDict (Mock.set_args "Grade1" "mix")) Mock.start
       = (Ok tt,
          World h
            [ToNode (PStr "Grade1"); Knobs (NodeRef 1);
             GetItem (NodeRef 1) (PStr "mix");
             SetValue (KnobRef (NodeRef 1) 2) Mock.one_half]
            [success
               (PDict [("node", PStr "Grade1"); ("knob", PStr "mix");
                       ("value", Mock.one_half)])])
       /\ kb_value Mock.host (KnobRef (NodeRef 1) 2) h
          = (Ok Mock.one_half, h).
Proof.
  split; [|split].
  - edestruct set_knob_value_cases
      with (rt := Mock.runtime) (nuke := Mock.host)
           (d := Mock.set_args "Nope" "mix") (w := Mock.start)
      as [A _]; [reflexivity..|].
    apply A. reflexivity.
  - edestruct set_knob_value_cases
      with (rt := Mock.runtime) (nuke := Mock.host)
           (d := Mock.set_args "Grade1" "gain") (w := Mock.start)
      as [_ B]; [reflexivity..|].
    edestruct B as [B1 _]; [reflexivity..|].
    apply B1. intros s [= <-]. cbn. intuition discriminate.
  - eexists. split.
    + edestruct set_knob_value_cases
        with (rt := Mock.runtime) (nuke := Mock.host)
             (d := Mock.set_args "Grade1" "mix") (w := Mock.start)
        as [_ B]; [reflexivity..|].
      edestruct B as [_ B2]; [reflexivity..|].
      eapply (B2 "mix"); try reflexivity. cbn. tauto.
    + reflexivity.
Defined.

(** C4, two runs.  Inputs "Grade1", "Read1": both resolve, the first
    is wired to slot 0 and the second to slot 1, and the session holds
    the new node with these two inputs.  Inputs "Read1", "Nope",
    "Grade1": the new node is still in the session, with its input 0
    wired and nothing else. *)
Lemma create_node_missing_input_witness :
  (exists h,
      create_node Mock.runtime Mock.host
        (PDict (Mock.create_args (PStr "Merge2")
                  (PList [PStr "Grade1"; PStr "Read1"]))) Mock.start
      = (Ok tt,
         World h
           [CreateNode (PStr "Merge2");
            ToNode (PStr "Grade1"); SetInput (NodeRef 3) 0 (NodeRef 1);
            ToNode (PStr "Read1"); SetInput (NodeRef 3) 1 (NodeRef 0);
            NodeName (NodeRef 3); NodeClass (NodeRef 3);
            XPos (NodeRef 3); YPos (NodeRef 3)]
           [success
              (PDict [("name", PStr "Merge21"); ("type", PStr "Merge2");
                      ("position",
                       PDict [("x", PInt 0); ("y", PInt 0)])])])
      /\ option_map Mock.mn_inputs (Mock.get (NodeRef 3) h)
         = Some [(0%nat, NodeRef 1); (1%nat, NodeRef 0)])
  /\ (exists h,
        create_node Mock.runtime Mock.host (PDict Mock.merge_args)
          Mock.start
        = (Ok tt,
           World h
             [CreateNode (PStr "Merge2"); ToNode (PStr "Read1");
              SetInput (NodeRef 3) 0 (NodeRef 0); ToNode (PStr "Nope")]
             [failure "Input node not found: Nope"])
        /\ option_map Mock.mn_inputs (Mock.get (NodeRef 3) h)
           = Some [(0%nat, NodeRef 0)]).
Proof.
  split.
  - edestruct create_node_missing_input
      with (rt := Mock.runtime) (nuke := Mock.host)
           (d := Mock.create_args (PStr "Merge2")
                   (PList [PStr "Grade1"; PStr "Read1"]))
           (ncs := @nil hcall) (w := Mock.start)
      as [A _];
      [reflexivity|reflexivity|reflexivity
      |apply named_skip; reflexivity|].
    edestruct A as (_ & _ & A3).
    + eapply wired_cons; [reflexivity|reflexivity|].
      eapply wired_cons; [reflexivity|reflexivity|apply wired_nil].
    + eexists. split.
      * eapply A3; reflexivity.
      * reflexivity.
  - edestruct create_node_missing_input
      with (rt := Mock.runtime) (nuke := Mock.host) (d := Mock.merge_args)
           (ncs := @nil hcall) (w := Mock.start)
      as [_ B];
      [reflexivity|reflexivity|reflexivity
      |apply named_skip; reflexivity|].
    edestruct (B [PStr "Read1"] (PStr "Nope") [PStr "Grade1"])
      as (E & _ & _).
    + reflexivity.
    + eapply wired_cons; [reflexivity|reflexivity|apply wired_nil].
    + reflexivity.
    + eexists. split; [exact E|reflexivity].
Defined.

(** C10, a run: [name] is the empty string, and the payload reports
    the name the host gave. *)
Lemma create_node_falsy_name_witness :
  exists h,
    create_node Mock.runtime Mock.host (PDict Mock.blur_args) Mock.start
    = (Ok tt,
       World h
         [CreateNode (PStr "Blur"); ToNode (PStr "Grade1");
          SetInput (NodeRef 3) 0 (NodeRef 1);
          NodeName (NodeRef 3); NodeClass (NodeRef 3);
          XPos (NodeRef 3); YPos (NodeRef 3)]
         [success
            (PDict [("name", PStr "Blur1"); ("type", PStr "Blur");
                    ("position",
                     PDict [("x", PInt 0); ("y", PInt 0)])])]).
Proof.
  edestruct create_node_falsy_name
    with (rt := Mock.runtime) (nuke := Mock.host) (d := Mock.blur_args)
         (w := Mock.start)
    as [_ B]; [reflexivity..|].
  eexists. erewrite B; cycle 1.
  - reflexivity.
  - reflexivity.
  - eapply wired_cons; [reflexivity|reflexivity|apply wired_nil].
  - reflexivity.
  - reflexivity.
  - reflexivity.
  - reflexivity.
  - reflexivity.
  - reflexivity.
Defined.

(** C7, a run: of the six knobs of "Grade1", two are of another kind
    and one raises on reading; the other three are in the snapshot. *)
Lemma get_node_snapshot_witness :
  w_out (snd (get_node Mock.runtime Mock.host
                (PDict [("nodeName", PStr "Grade1")]) Mock.start))
  = [success
       (node_info (PStr "Grade1") (PStr "Grade") (PInt 10) (PInt 80)
          [("name", PStr "Grade1"); ("mix", PInt 1);
           ("unpremult", PBool false)])].
Proof.
  edestruct get_node_snapshot
    with (rt := Mock.runtime) (nuke := Mock.host)
         (d := [("nodeName", PStr "Grade1")]) (w := Mock.start)
    as [[kn [w2 [R O]]] B]; [reflexivity..|].
  destruct (B (mock_reads_keep _ _)) as [E _].
  rewrite R in E. injection E as ->.
  destruct (O eq_refl) as [_ X]. exact X.
Defined.

(* ===================================================================== *)
(** * Further properties of [main] *)
(* ===================================================================== *)

Section Main.
Variable H : Type.
Variable rt : Runtime.

Lemma main_decoded (imp : import_result H) (argv : list string)
  (args : pyval) (w : world H) :
  decodes rt argv args ->
  main rt imp argv w = run_command rt imp (nth 1 argv "") args w.
Proof.
  intros [L D]. unfold main.
  destruct (Nat.ltb_spec (List.length argv) 2) as [X|_]; [lia|].
  destruct (2 <? List.length argv)%nat; now rewrite D.
Qed.

(** X1.  An argument text that [json.loads] rejects with a
    [JSONDecodeError] is answered by the failure carrying the decoder's
    message.  The host module is not even imported: the answer is the
    same whatever the import would do, and the session is untouched. *)
Theorem main_invalid_json (imp : import_result H) (argv : list string)
  (e : exn) (w : world H) :
  2 < List.length argv ->
  json_loads rt (nth 2 argv "") = Err e ->
  is_JSONDecodeError (exn_cls e) = true ->
  main rt imp argv w
  = (Ok tt,
     World (w_host w) (w_calls w)
       (w_out w ++ [failure ("Invalid JSON arguments: " ++ exn_str e)])).
Proof.
  intros L J D. unfold main.
  destruct (Nat.ltb_spec (List.length argv) 2) as [X|_]; [lia|].
  destruct (Nat.ltb_spec 2 (List.length argv)) as [_|X]; [|lia].
  rewrite J, D. reflexivity.
Qed.

(** X2.  When [import nuke] raises, no handler runs, whatever the
    command and the arguments are.  An [ImportError] gives the fixed
    message about running within Nuke; any other [Exception] gives the
    report of the outer handler, with the traceback. *)
Theorem main_import_raises (argv : list string) (args : pyval) (e : exn)
  (w : world H) :
  decodes rt argv args ->
  is_Exception (exn_cls e) = true ->
  main rt (ImportRaises e) argv w
  = (Ok tt,
     World (w_host w) (w_calls w)
       (w_out w
        ++ [failure
              (if is_ImportError (exn_cls e)
               then "Failed to import nuke module. "
                    ++ "Make sure this script is run within Nuke."
               else crash_report rt e)])).
Proof.
  intros D X. rewrite (@main_decoded _ argv args w D).
  unfold run_command, try_except, raise.
  destruct (is_ImportError (exn_cls e)); [reflexivity|].
  rewrite X. reflexivity.
Qed.

(** X3.  A command name other than the four, compared as written
    (case and all), is answered by the failure naming it; no host call
    is made. *)
Theorem main_unknown_command (nuke : Nuke H) (argv : list string)
  (args : pyval) (w : world H) :
  decodes rt argv args ->
  ~ In (nth 1 argv "") commands ->
  main rt (Imported nuke) argv w
  = (Ok tt,
     World (w_host w) (w_calls w)
       (w_out w ++ [failure ("Unknown command: " ++ nth 1 argv "")])).
Proof.
  intros D N. rewrite (@main_decoded _ argv args w D).
  unfold run_command, try_except, dispatch.
  repeat match goal with
         | |- context [String.eqb ?a ?b] =>
             destruct (String.eqb_spec a b) as [X|_];
             [exfalso; apply N; rewrite X; cbn; tauto|]
         end.
  reflexivity.
Qed.

(** X4.  A command given without argument text runs on the empty dict:
    each of the four commands answers that its first required key is
    missing, and makes no host call. *)
Theorem main_command_alone (nuke : Nuke H) (prog command : string)
  (w : world H) :
  In command commands ->
  exists key rest,
    required_keys command = key :: rest
    /\ main rt (Imported nuke) [prog; command] w
       = (Ok tt,
          World (w_host w) (w_calls w)
            (w_out w ++ [failure (key ++ " parameter is required")])).
Proof.
  intros [<-|[<-|[<-|[<-|[]]]]]; eexists; eexists;
    (split; [reflexivity|reflexivity]).
Qed.

(** X5.  Arguments that decode to something other than an object (a
    number, a string, a list, a boolean, null) never reach the host:
    for each of the four commands [main] prints exactly one failure and
    makes no host call. *)
Theorem main_not_a_mapping (nuke : Nuke H) (argv : list string)
  (args : pyval) (w : world H) :
  decodes rt argv args ->
  In (nth 1 argv "") commands ->
  (forall d, args <> PDict d) ->
  exists msg,
    main rt (Imported nuke) argv w
    = (Ok tt, World (w_host w) (w_calls w) (w_out w ++ [failure msg])).
Proof.
  intros D C N. rewrite (@main_decoded _ argv args w D).
  unfold run_command, try_except, dispatch.
  destruct C as [<-|[<-|[<-|[<-|[]]]]];
    cbn [String.eqb Ascii.eqb Bool.eqb];
    unfold create_node, set_knob_value, get_node, execute, bind, lift;
    destruct args as [| | | |s|l|d|]; try (now elim (N d));
    cbn [py_contains py_getitem py_get];
    repeat match goal with
           | |- context [negb ?b] => destruct b; cbn [negb]
           end;
    eexists; reflexivity.
Qed.

End Main.

(* ===================================================================== *)
(** * Further properties of the handlers *)
(* ===================================================================== *)

(** ** The characters of a string *)

Lemma code_points_cons (c : ascii) (s : string) :
  code_points (String c s)
  = match code_points s with
    | String c' p :: rest =>
        if continues c' then String c (String c' p) :: rest
        else String c EmptyString :: String c' p :: rest
    | ps => String c EmptyString :: ps
    end.
Proof. reflexivity. Qed.

(** The first character of a non-empty string is its first byte with
    the continuation bytes that follow it; the other characters are
    those of the remaining text. *)
Lemma code_points_first (s : string) (a : ascii) :
  exists t rest,
    code_points (String a s) = String a t :: rest
    /\ forallb continues (list_ascii_of_string t) = true
    /\ s = t ++ fold_right append "" rest.
Proof.
  revert a. induction s as [|b s IH]; intros a.
  - exists "", []. repeat split.
  - destruct (IH b) as (t & rest & E & F & J).
    rewrite code_points_cons, E.
    destruct (continues b) eqn:B.
    + exists (String b t), rest. split; [reflexivity|]. split.
      * cbn. now rewrite B, F.
      * cbn. now rewrite <- J.
    + exists "", (String b t :: rest). split; [reflexivity|]. split.
      * reflexivity.
      * cbn. now rewrite <- J.
Qed.

Section HostErrors.
Variable H : Type.
Variable rt : Runtime.
Variable nuke : Nuke H.

(** X6.  When the host cannot create the node (an unknown type, say),
    [createNode] answers with the failure carrying the host's message;
    the creation attempt is its only host call. *)
Theorem create_node_creation_fails (d : dict) (ty : pyval) (e : exn)
  (h1 : H) (w : world H) :
  dict_lookup "nodeType" d = Some ty ->
  nk_createNode nuke ty (w_host w) = (Err e, h1) ->
  is_Exception (exn_cls e) = true ->
  create_node rt nuke (PDict d) w
  = (Ok tt,
     World h1 (w_calls w ++ [CreateNode ty])
       (w_out w ++ [failure ("Error creating node: " ++ exn_str e)])).
Proof.
  intros Lty C X. rewrite (create_node_dict rt nuke _ w Lty).
  unfold create_node_try, create_and_name, try_except, bind, createNode,
    call.
  rewrite C. cbn. rewrite X. reflexivity.
Qed.

(** X7.  [inputs] that cannot be iterated (null, a number, a boolean)
    are found out only after the node has been created and renamed: the
    answer is a failure, yet the new node stays in the session. *)
Theorem create_node_inputs_not_iterable (d : dict) (ty : pyval) (e : exn)
  (n : node) (h1 h2 : H) (ncs : list hcall) (w : world H) :
  dict_lookup "nodeType" d = Some ty ->
  py_iter rt (get_or d "inputs" (PList [])) = Err e ->
  nk_createNode nuke ty (w_host w) = (Ok n, h1) ->
  named nuke n (get_or d "name" PNone) h1 ncs h2 ->
  create_node rt nuke (PDict d) w
  = (Ok tt,
     World h2 (w_calls w ++ CreateNode ty :: ncs)
       (w_out w ++ [failure ("Error creating node: " ++ exn_str e)])).
Proof.
  intros Lty I C N. rewrite (create_node_dict rt nuke _ w Lty).
  unfold create_node_try, try_except, bind at 1.
  rewrite (create_and_name_run ty w C N).
  unfold bind, lift. rewrite I.
  rewrite (py_iter_raises rt _ I). reflexivity.
Qed.

(** X8.  [inputs] given as a string instead of a list is gone through
    character by character: the first lookup is for the one-character
    name made of its first character (the first byte of the text and the
    continuation bytes of that code point), and when the host has no
    such node the failure names that character. *)
Theorem create_node_inputs_string (d : dict) (ty : pyval) (s c : string)
  (rest : list string) (n : node) (h1 h2 h3 : H) (ncs : list hcall)
  (w : world H) :
  dict_lookup "nodeType" d = Some ty ->
  dict_lookup "inputs" d = Some (PStr s) ->
  code_points s = c :: rest ->
  nk_createNode nuke ty (w_host w) = (Ok n, h1) ->
  named nuke n (get_or d "name" PNone) h1 ncs h2 ->
  nk_toNode nuke (PStr c) h2 = (Ok None, h3) ->
  create_node rt nuke (PDict d) w
  = (Ok tt,
     World h3
       (w_calls w ++ CreateNode ty :: ncs ++ [ToNode (PStr c)])
       (w_out w ++ [failure ("Input node not found: " ++ c)]))
  /\ exists a t,
       c = String a t
       /\ forallb continues (list_ascii_of_string t) = true
       /\ s = String a (t ++ fold_right append "" rest).
Proof.
  intros Lty Lin P C N T. split.
  - rewrite (create_node_dict rt nuke _ w Lty).
    unfold get_or at 2. rewrite Lin.
    unfold create_node_try, try_except, bind at 1.
    rewrite (create_and_name_run ty w C N).
    unfold bind at 1, lift. cbn [py_iter]. unfold chars. rewrite P.
    cbn [map]. unfold bind at 1. cbn [connect_inputs].
    unfold bind at 1, toNode, call. cbn. rewrite T. cbn.
    rewrite <- !app_assoc. reflexivity.
  - destruct s as [|a s]; [discriminate|].
    destruct (code_points_first s a) as (t & rest' & E & F & J).
    rewrite E in P. injection P as <- <-.
    exists a, t. repeat split; [assumption|]. now rewrite <- J.
Qed.

(** X9.  When the host refuses a wiring, [createNode] answers with the
    failure carrying the host's message and stops: the refused call is
    the last one, the inputs wired before it stay wired, and the node
    stays in the session. *)
Theorem create_node_wiring_fails (d : dict) (ty x : pyval)
  (pre post : list pyval) (e : exn) (n m : node) (h1 h2 h3 h4 h5 : H)
  (ncs cs : list hcall) (w : world H) :
  dict_lookup "nodeType" d = Some ty ->
  py_iter rt (get_or d "inputs" (PList [])) = Ok (pre ++ x :: post)%list ->
  nk_createNode nuke ty (w_host w) = (Ok n, h1) ->
  named nuke n (get_or d "name" PNone) h1 ncs h2 ->
  wired nuke n 0 pre h2 cs h3 ->
  nk_toNode nuke x h3 = (Ok (Some m), h4) ->
  nd_setInput nuke n (List.length pre) m h4 = (Err e, h5) ->
  is_Exception (exn_cls e) = true ->
  create_node rt nuke (PDict d) w
  = (Ok tt,
     World h5
       (w_calls w
        ++ CreateNode ty
           :: ncs ++ cs ++ [ToNode x; SetInput n (List.length pre) m])
       (w_out w ++ [failure ("Error creating node: " ++ exn_str e)])).
Proof.
  intros Lty I C N W T S X. rewrite (create_node_dict rt nuke _ w Lty).
  unfold create_node_try, try_except, bind at 1.
  rewrite (create_and_name_run ty w C N).
  unfold bind at 1, lift. rewrite I. unfold bind at 1.
  rewrite (connect_wired rt _ W) by reflexivity.
  cbn [connect_inputs Nat.add]. unfold bind at 1, toNode, call. cbn.
  rewrite T. cbn. unfold bind at 1, setInput, call. cbn.
  rewrite S. cbn. rewrite X. cbn.
  rewrite <- !app_assoc. reflexivity.
Qed.

(** X10.  [createNode] carried through.  The host calls come in this
    order: the creation; the renaming, when a true name is given; for
    each input in turn, its lookup and its wiring at the slot of its
    position; then the queries for name, class and position.  The
    payload holds the host's answers to those queries: the name is read
    back after the renaming, not copied from the arguments. *)
Theorem create_node_succeeds (d : dict) (ty nv cv xv yv : pyval)
  (items : list pyval) (n : node) (h1 h2 h3 h4 h5 h6 h7 : H)
  (ncs cs : list hcall) (w : world H) :
  dict_lookup "nodeType" d = Some ty ->
  py_iter rt (get_or d "inputs" (PList [])) = Ok items ->
  nk_createNode nuke ty (w_host w) = (Ok n, h1) ->
  named nuke n (get_or d "name" PNone) h1 ncs h2 ->
  wired nuke n 0 items h2 cs h3 ->
  nd_name nuke n h3 = (Ok nv, h4) ->
  nd_Class nuke n h4 = (Ok cv, h5) ->
  nd_xpos nuke n h5 = (Ok xv, h6) ->
  nd_ypos nuke n h6 = (Ok yv, h7) ->
  serializable (PList [nv; cv; xv; yv]) = true ->
  create_node rt nuke (PDict d) w
  = (Ok tt,
     World h7
       (w_calls w
        ++ CreateNode ty
           :: ncs ++ cs ++ [NodeName n; NodeClass n; XPos n; YPos n])
       (w_out w
        ++ [success
              (PDict [("name", nv); ("type", cv);
                      ("position", PDict [("x", xv); ("y", yv)])])])).
Proof.
  intros Lty I C N W N1 N2 N3 N4 S.
  rewrite (create_node_dict rt nuke _ w Lty).
  unfold create_node_try, try_except, bind at 1.
  rewrite (create_and_name_run ty w C N).
  unfold bind at 1, lift. rewrite I. unfold bind at 1.
  rewrite <- (app_nil_r items) at 1.
  rewrite (connect_wired rt _ W) by reflexivity.
  cbn [connect_inputs ret].
  unfold bind, name_of, Class_of, xpos, ypos, call. cbn.
  rewrite N1. cbn. rewrite N2. cbn. rewrite N3. cbn. rewrite N4. cbn.
  rewrite respond_success.
  - cbn. rewrite <- !app_assoc. reflexivity.
  - cbn in S |- *.
    apply andb_prop in S as [S1 S]. apply andb_prop in S as [S2 S].
    apply andb_prop in S as [S3 S]. apply andb_prop in S as [S4 _].
    now rewrite S1, S2, S3, S4.
Qed.

(** X11.  [setKnobValue] when the host refuses the new value (a locked
    knob, a value of the wrong type): the answer is the failure carrying
    the host's message, after the one attempt to set. *)
Theorem set_knob_value_refused (d : dict) (nm v : pyval) (s : string)
  (n : node) (k : knob) (ks : list string) (e : exn) (h1 h2 h3 h4 : H)
  (w : world H) :
  dict_lookup "nodeName" d = Some nm ->
  dict_lookup "knobName" d = Some (PStr s) ->
  dict_lookup "value" d = Some v ->
  nk_toNode nuke nm (w_host w) = (Ok (Some n), h1) ->
  nd_knobs nuke n h1 = (Ok ks, h2) ->
  In s ks ->
  nd_getitem nuke n (PStr s) h2 = (Ok k, h3) ->
  kb_setValue nuke k v h3 = (Err e, h4) ->
  is_Exception (exn_cls e) = true ->
  set_knob_value rt nuke (PDict d) w
  = (Ok tt,
     World h4
       (w_calls w
        ++ [ToNode nm; Knobs n; GetItem n (PStr s); SetValue k v])
       (w_out w
        ++ [failure ("Error setting knob value: " ++ exn_str e)])).
Proof.
  intros Lnm Lkn Lv T K I G S X.
  expose.
  rewrite (dict_mem_found _ _ Lnm), (dict_mem_found _ _ Lkn),
    (dict_mem_found _ _ Lv), Lnm, Lkn, Lv.
  cbn [negb]. rewrite T. cbn. rewrite K. cbn.
  apply existsb_eqb_In in I. rewrite I. cbn.
  rewrite G. cbn. rewrite S. cbn. rewrite X. same_log.
Qed.

(** X12.  [getNode] for a name the host does not know: the failure
    names it, and the lookup is the only host call. *)
Theorem get_node_missing (d : dict) (nm : pyval) (h1 : H) (w : world H) :
  dict_lookup "nodeName" d = Some nm ->
  nk_toNode nuke nm (w_host w) = (Ok None, h1) ->
  get_node rt nuke (PDict d) w
  = (Ok tt,
     World h1 (w_calls w ++ [ToNode nm])
       (w_out w ++ [failure ("Node not found: " ++ py_str rt nm)])).
Proof.
  intros Lnm T. expose.
  rewrite (dict_mem_found _ _ Lnm), Lnm. cbn [negb].
  rewrite T. reflexivity.
Qed.

(** X13.  [execute] for a name the host does not know: the failure
    names it, the lookup is the only host call, and the frame bounds
    are not looked at (they need not even be numbers). *)
Theorem execute_node_missing (d : dict) (nm fs fe : pyval) (h1 : H)
  (w : world H) :
  dict_lookup "writeNodeName" d = Some nm ->
  dict_lookup "frameRangeStart" d = Some fs ->
  dict_lookup "frameRangeEnd" d = Some fe ->
  nk_toNode nuke nm (w_host w) = (Ok None, h1) ->
  execute rt nuke (PDict d) w
  = (Ok tt,
     World h1 (w_calls w ++ [ToNode nm])
       (w_out w ++ [failure ("Write node not found: " ++ py_str rt nm)])).
Proof.
  intros Lnm Lfs Lfe T. expose.
  rewrite (dict_mem_found _ _ Lnm), (dict_mem_found _ _ Lfs),
    (dict_mem_found _ _ Lfe), Lnm, Lfs, Lfe.
  cbn [negb]. rewrite T. reflexivity.
Qed.

(** X14.  When the render itself fails, [execute] answers with the
    failure carrying the host's message, and does not ask for the
    output path. *)
Theorem execute_render_fails (d : dict) (nm fs fe cl : pyval) (n : node)
  (a b : Z) (e : exn) (h1 h2 h3 : H) (w : world H) :
  dict_lookup "writeNodeName" d = Some nm ->
  dict_lookup "frameRangeStart" d = Some fs ->
  dict_lookup "frameRangeEnd" d = Some fe ->
  nk_toNode nuke nm (w_host w) = (Ok (Some n), h1) ->
  nd_Class nuke n h1 = (Ok cl, h2) ->
  eq_str cl "Write" = true ->
  py_int rt fs = Ok a ->
  py_int rt fe = Ok b ->
  nk_execute nuke n a b h2 = (Err e, h3) ->
  is_Exception (exn_cls e) = true ->
  execute rt nuke (PDict d) w
  = (Ok tt,
     World h3 (w_calls w ++ [ToNode nm; NodeClass n; Execute n a b])
       (w_out w
        ++ [failure ("Error executing write node: " ++ exn_str e)])).
Proof.
  intros Lnm Lfs Lfe T C W A B R X. expose.
  rewrite (dict_mem_found _ _ Lnm), (dict_mem_found _ _ Lfs),
    (dict_mem_found _ _ Lfe), Lnm, Lfs, Lfe.
  cbn [negb]. rewrite T. cbn. rewrite C. cbn. rewrite W, A, B. cbn.
  rewrite R. cbn. rewrite X. same_log.
Qed.

(** X15.  A failure from [execute] does not mean that nothing was
    rendered: when the render succeeds and reading the output path then
    raises (no [file] knob, or its value cannot be read), the answer is
    a failure although the host has rendered the frames. *)
Theorem execute_path_unreadable (d : dict) (nm fs fe cl : pyval)
  (n : node) (a b : Z) (e : exn) (h1 h2 h3 h4 : H) (tail : list hcall)
  (w : world H) :
  dict_lookup "writeNodeName" d = Some nm ->
  dict_lookup "frameRangeStart" d = Some fs ->
  dict_lookup "frameRangeEnd" d = Some fe ->
  nk_toNode nuke nm (w_host w) = (Ok (Some n), h1) ->
  nd_Class nuke n h1 = (Ok cl, h2) ->
  eq_str cl "Write" = true ->
  py_int rt fs = Ok a ->
  py_int rt fe = Ok b ->
  nk_execute nuke n a b h2 = (Ok tt, h3) ->
  (nd_getitem nuke n (PStr "file") h3 = (Err e, h4)
   /\ tail = [GetItem n (PStr "file")]
   \/ exists k h,
       nd_getitem nuke n (PStr "file") h3 = (Ok k, h)
       /\ kb_value nuke k h = (Err e, h4)
       /\ tail = [GetItem n (PStr "file"); KnobValue k]) ->
  is_Exception (exn_cls e) = true ->
  execute rt nuke (PDict d) w
  = (Ok tt,
     World h4
       (w_calls w ++ [ToNode nm; NodeClass n; Execute n a b] ++ tail)
       (w_out w
        ++ [failure ("Error executing write node: " ++ exn_str e)])).
Proof.
  intros Lnm Lfs Lfe T C W A B R P X. expose.
  rewrite (dict_mem_found _ _ Lnm), (dict_mem_found _ _ Lfs),
    (dict_mem_found _ _ Lfe), Lnm, Lfs, Lfe.
  cbn [negb]. rewrite T. cbn. rewrite C. cbn. rewrite W, A, B. cbn.
  rewrite R. cbn.
  destruct P as [[G ->]|[k [h [G [V ->]]]]].
  - rewrite G. cbn. rewrite X. same_log.
  - rewrite G. cbn. rewrite V. cbn. rewrite X. same_log.
Qed.
End HostErrors.

(* ===================================================================== *)
(** * What the handlers never do *)
(* ===================================================================== *)

Section Never.
Variable H : Type.
Variable rt : Runtime.
Variable nuke : Nuke H.

Lemma logs_try_bare (P : hcall -> Prop) {A} (body handler : M H A) :
  logs P body -> logs P handler -> logs P (try_bare body handler).
Proof.
  intros Lb Lh w. unfold try_bare.
  destruct (Lb w) as [cs1 [E1 F1]].
  destruct (body w) as [[a|e] w1]; cbn in E1.
  - exists cs1. now split.
  - destruct (Lh w1) as [cs2 [E2 F2]].
    exists (cs1 ++ cs2)%list. rewrite E2, E1, app_assoc.
    split; [reflexivity|]. apply Forall_app. now split.
Qed.

(** Going through a handler, call by call. *)
Ltac log_steps :=
  repeat first
    [ apply logs_respond
    | apply logs_ret
    | apply logs_lift
    | apply logs_call; cbn; tauto
    | apply logs_connect_inputs; intros; cbn; tauto
    | apply logs_try_except; [|intros ?]
    | apply logs_try_bare
    | apply logs_bind; [|intros ?]
    | match goal with
      | |- logs _ (if ?b then _ else _) => destruct b
      | |- logs _ (match ?o with Some _ => _ | None => _ end) => destruct o
      end ].

Lemma logs_collect_knobs (P : hcall -> Prop) (n : node) (ks : list string) :
  (forall key, P (GetItem n key)) ->
  (forall k, P (KnobClass k)) ->
  (forall k, P (KnobValue k)) ->
  forall acc, logs P (collect_knobs nuke n ks acc).
Proof.
  intros PG PC PV. induction ks as [|key ks IH]; intros acc; cbn.
  - apply logs_ret.
  - apply logs_bind; [|intros ?; apply IH].
    unfold read_knob, getitem, knob_Class, knob_value.
    apply logs_try_bare; [|apply logs_ret].
    apply logs_bind; [apply logs_call, PG|]. intros k.
    apply logs_bind; [apply logs_call, PC|]. intros c.
    case_in_strs.
    { apply logs_bind; [apply logs_call, PV|]. intros ?. apply logs_ret. }
    apply logs_bind; [apply logs_call, PC|]. intros c'.
    case_in_strs; [|apply logs_ret].
    apply logs_bind; [apply logs_call, PV|]. intros ?. apply logs_ret.
Qed.

(** X16.  Each command keeps to its own host calls, whatever the
    arguments are and whatever the host does.  Only [execute] renders;
    only [createNode] creates a node or wires an input; only
    [createNode] and [setKnobValue] set a knob; [getNode], and any
    unknown command, change nothing in the session through the script. *)
Theorem dispatch_keeps_to_its_calls (command : string) (args : pyval)
  (w : world H) :
  exists cs,
    w_calls (snd (dispatch rt nuke command args w)) = (w_calls w ++ cs)%list
    /\ Forall (call_of command) cs.
Proof.
  revert w. change (logs (call_of command) (dispatch rt nuke command args)).
  unfold dispatch.
  destruct (String.eqb_spec command "createNode") as [->|_].
  { unfold create_node, create_node_try, create_and_name, createNode,
      getitem, setValue, name_of, Class_of, xpos, ypos.
    log_steps. }
  destruct (String.eqb_spec command "setKnobValue") as [->|_].
  { unfold set_knob_value, toNode, knobs, getitem, setValue. log_steps. }
  destruct (String.eqb_spec command "getNode") as [->|_].
  { unfold get_node, get_node_try, toNode, name_of, Class_of, xpos, ypos,
      knobs.
    log_steps. apply logs_collect_knobs; intros; exact I. }
  destruct (String.eqb_spec command "execute") as [->|_].
  { unfold execute, toNode, Class_of, nuke_execute, getitem, knob_value.
    log_steps. }
  apply logs_respond.
Qed.

(** A [try] whose handler always returns lets no [Exception] out. *)
Lemma try_except_escapes {A} (body : M H A) (handler : exn -> M H A)
  (w : world H) (e : exn) (w' : world H) :
  (forall e0 w0, exists a w1, handler e0 w0 = (Ok a, w1)) ->
  try_except body handler w = (Err e, w') ->
  is_Exception (exn_cls e) = false.
Proof.
  intros Hh. unfold try_except.
  destruct (body w) as [[a|e0] w1]; [discriminate|].
  destruct (is_Exception (exn_cls e0)) eqn:X.
  - destruct (Hh e0 w1) as [a [w2 R]]. rewrite R. discriminate.
  - now intros [= <- <-].
Qed.

(** X17.  On an argument mapping a handler lets no [Exception] out:
    what goes wrong inside it is answered by the handler's own failure
    envelope.  So the outer handler of [main], with its traceback, is
    reached only through arguments that are no mapping or through a
    failing import. *)
Theorem dispatch_mapping_catches (command : string) (d : dict)
  (w : world H) (e : exn) (w' : world H) :
  dispatch rt nuke command (PDict d) w = (Err e, w') ->
  is_Exception (exn_cls e) = false.
Proof.
  unfold dispatch, create_node, set_knob_value, get_node, execute,
    create_node_try, get_node_try.
  repeat match goal with
         | |- context [String.eqb command ?c] =>
             destruct (String.eqb command c)
         end;
    unfold bind, lift; cbn [py_contains py_getitem py_get];
    unfold dict_mem;
    repeat (match goal with
            | |- context [dict_lookup ?k d] => destruct (dict_lookup k d)
            end; cbn [negb]);
    try (rewrite respond_failure; discriminate);
    try (cbn [append]; rewrite respond_failure; discriminate);
    apply try_except_escapes;
    intros; eexists; eexists; cbn [append]; apply respond_failure.
Qed.

(** X18.  In the knob loop of [getNode], a knob whose kind is none of
    the seven is asked for its kind twice (once per list of kinds) and
    never for its value; it leaves the knob map as it was. *)
Theorem read_knob_skips_other_kinds (n : node) (acc : dict) (key : string)
  (k : knob) (c c' : pyval) (h1 h2 h3 : H) (w : world H) :
  nd_getitem nuke n (PStr key) (w_host w) = (Ok k, h1) ->
  kb_Class nuke k h1 = (Ok c, h2) ->
  kb_Class nuke k h2 = (Ok c', h3) ->
  in_strs c scalar_kinds = false ->
  in_strs c' scalar_kinds = false ->
  read_knob nuke n acc key w
  = (Ok acc,
     World h3
       (w_calls w ++ [GetItem n (PStr key); KnobClass k; KnobClass k])
       (w_out w)).
Proof.
  intros G C C' S S'.
  rewrite in_scalar_kinds in S, S'.
  apply orb_false_elim in S as [S1 _]. apply orb_false_elim in S' as [_ S2].
  unfold read_knob, try_bare, bind, getitem, knob_Class, knob_value, call,
    ret.
  rewrite G. cbn -[in_strs]. rewrite C. cbn -[in_strs]. rewrite S1.
  cbn -[in_strs]. rewrite C'. cbn -[in_strs]. rewrite S2.
  rewrite <- !app_assoc. reflexivity.
Qed.

Lemma starts_call {A B} (c : hcall) (op : H -> res A * H)
  (f : A -> M H B) :
  (forall a, logs (fun _ => True) (f a)) ->
  starts_with c (bind (call c op) f).
Proof.
  intros Lf w. unfold bind, call.
  destruct (op (w_host w)) as [[a|e] h1].
  - match goal with
    | |- context [f a ?w0] => destruct (Lf a w0) as [cs [E _]]
    end.
    exists cs. rewrite E. cbn. now rewrite <- app_assoc.
  - exists []. reflexivity.
Qed.

Lemma starts_bind {A B} (c : hcall) (m : M H A) (f : A -> M H B) :
  starts_with c m ->
  (forall a, logs (fun _ => True) (f a)) ->
  starts_with c (bind m f).
Proof.
  intros Sm Lf w. unfold bind. destruct (Sm w) as [cs E].
  destruct (m w) as [[a|e] w1]; cbn in E.
  - destruct (Lf a w1) as [cs' [E' _]].
    exists (cs ++ cs')%list. rewrite E', E, <- app_assoc. reflexivity.
  - now exists cs.
Qed.

Lemma starts_try_except {A} (c : hcall) (body : M H A)
  (handler : exn -> M H A) :
  starts_with c body ->
  (forall e, logs (fun _ => True) (handler e)) ->
  starts_with c (try_except body handler).
Proof.
  intros Sb Lh w. unfold try_except. destruct (Sb w) as [cs E].
  destruct (body w) as [[a|e] w1]; cbn in E.
  - now exists cs.
  - destruct (is_Exception (exn_cls e)).
    + destruct (Lh e w1) as [cs' [E' _]].
      exists (cs ++ cs')%list. rewrite E', E, <- app_assoc. reflexivity.
    + now exists cs.
Qed.

(** [set_knob_value] and [execute] on a mapping that has the required
    keys: what is left is the [try] statement. *)
Lemma set_knob_value_dict (d : dict) (nm kn v : pyval) (w : world H) :
  dict_lookup "nodeName" d = Some nm ->
  dict_lookup "knobName" d = Some kn ->
  dict_lookup "value" d = Some v ->
  set_knob_value rt nuke (PDict d) w
  = try_except
      (found <- toNode nuke nm ;;
       match found with
       | None =>
           respond rt false PNone
             (PStr ("Node not found: " ++ py_str rt nm))
       | Some n =>
           ks <- knobs nuke n ;;
           present <- lift (py_in_keys rt kn ks) ;;
           if negb present
           then respond rt false PNone
                  (PStr ("Knob not found: " ++ py_str rt kn))
           else
             k <- getitem nuke n kn ;;
             setValue nuke k v ;;
             respond rt true
               (PDict [("node", nm); ("knob", kn); ("value", v)])
               PNone
       end)
      (fun e =>
         respond rt false PNone
           (PStr ("Error setting knob value: " ++ exn_str e))) w.
Proof.
  intros L1 L2 L3. unfold set_knob_value, bind, lift.
  cbn [py_contains py_getitem]. unfold dict_mem.
  rewrite L1, L2, L3. reflexivity.
Qed.

Lemma execute_dict (d : dict) (nm fs fe : pyval) (w : world H) :
  dict_lookup "writeNodeName" d = Some nm ->
  dict_lookup "frameRangeStart" d = Some fs ->
  dict_lookup "frameRangeEnd" d = Some fe ->
  execute rt nuke (PDict d) w
  = try_except
      (found <- toNode nuke nm ;;
       match found with
       | None =>
           respond rt false PNone
             (PStr ("Write node not found: " ++ py_str rt nm))
       | Some write_node =>
           cl <- Class_of nuke write_node ;;
           if negb (eq_str cl "Write")
           then respond rt false PNone
                  (PStr ("Node " ++ py_str rt nm ++ " is not a Write node"))
           else
             a <- lift (py_int rt fs) ;;
             b <- lift (py_int rt fe) ;;
             nuke_execute nuke write_node a b ;;
             k <- getitem nuke write_node (PStr "file") ;;
             path <- knob_value nuke k ;;
             respond rt true
               (PDict [("node", nm); ("rendered", PBool true);
                       ("frameRange", PDict [("start", fs); ("end", fe)]);
                       ("outputPath", path)])
               PNone
       end)
      (fun e =>
         respond rt false PNone
           (PStr ("Error executing write node: " ++ exn_str e))) w.
Proof.
  intros L1 L2 L3. unfold execute, bind, lift.
  cbn [py_contains py_getitem]. unfold dict_mem.
  rewrite L1, L2, L3. reflexivity.
Qed.

(** X19.  The validation looks at the presence of the required keys
    only, not at their values: once all of them are there (be it with
    null), the handler goes to the host, and its first call hands over
    the value of the first key as it came: to create a node for
    [createNode], to look a node up for the other three. *)
Theorem dispatch_validated_reaches_host (command : string) (d : dict)
  (w : world H) :
  In command commands ->
  first_missing (required_keys command) d = None ->
  exists key rest v cs,
    required_keys command = key :: rest
    /\ dict_lookup key d = Some v
    /\ w_calls (snd (dispatch rt nuke command (PDict d) w))
       = (w_calls w
          ++ (if String.eqb command "createNode"
              then CreateNode v else ToNode v) :: cs)%list.
Proof.
  intros C F.
  destruct C as [<-|[<-|[<-|[<-|[]]]]]; cbn in F;
    unfold dispatch; cbn [String.eqb Ascii.eqb Bool.eqb];
    unfold dict_mem in F;
    repeat match type of F with
           | context [dict_lookup ?k d] =>
               let v := fresh "v" in
               let L := fresh "L" in
               destruct (dict_lookup k d) as [v|] eqn:L; cbn in F
           end;
    try discriminate.
  - assert (S : starts_with (CreateNode v)
                  (create_node rt nuke (PDict d))).
    { intros w0. rewrite (create_node_dict rt nuke _ w0 L). revert w0.
      apply starts_try_except; [|intros ?; apply logs_respond].
      unfold create_and_name, createNode.
      apply starts_bind; [apply starts_call|]; intros ?;
        unfold getitem, setValue, name_of, Class_of, xpos, ypos;
        log_steps. }
    destruct (S w) as [cs E]. now exists "nodeType", [], v, cs.
  - assert (S : starts_with (ToNode v)
                  (set_knob_value rt nuke (PDict d))).
    { intros w0. rewrite (@set_knob_value_dict d _ _ _ w0 L L0 L1). revert w0.
      apply starts_try_except; [|intros ?; apply logs_respond].
      apply starts_call. intros ?.
      unfold knobs, getitem, setValue. log_steps. }
    destruct (S w) as [cs E].
    now exists "nodeName", ["knobName"; "value"], v, cs.
  - assert (S : starts_with (ToNode v) (get_node rt nuke (PDict d))).
    { intros w0. unfold get_node, bind at 1 2, lift.
      cbn [py_contains py_getitem]. unfold dict_mem. rewrite L.
      cbn [negb]. revert w0.
      apply starts_try_except; [|intros ?; apply logs_respond].
      apply starts_call. intros ?.
      unfold name_of, Class_of, xpos, ypos, knobs. log_steps.
      apply logs_collect_knobs; intros; exact I. }
    destruct (S w) as [cs E]. now exists "nodeName", [], v, cs.
  - assert (S : starts_with (ToNode v) (execute rt nuke (PDict d))).
    { intros w0. rewrite (@execute_dict d _ _ _ w0 L L0 L1). revert w0.
      apply starts_try_except; [|intros ?; apply logs_respond].
      apply starts_call. intros ?.
      unfold Class_of, nuke_execute, getitem, knob_value. log_steps. }
    destruct (S w) as [cs E].
    now exists "writeNodeName", ["frameRangeStart"; "frameRangeEnd"], v, cs.
Qed.
End Never.

(* ===================================================================== *)
(** * Further runs on the scripted session *)
(* ===================================================================== *)

(** X1, a run: the text "{" is no JSON; the import is not looked at. *)
Lemma main_invalid_json_witness :
  main Mock.runtime (ImportRaises Mock.interrupt)
    ["nuke_bridge.py"; "getNode"; "{"] Mock.start
  = (Ok tt,
     World Mock.studio []
       [failure
          ("Invalid JSON arguments: "
           ++ "Expecting value: line 1 column 1 (char 0)")]).
Proof.
  apply (@main_invalid_json Mock.session Mock.runtime
           (ImportRaises Mock.interrupt)
           ["nuke_bridge.py"; "getNode"; "{"] Mock.decode_error Mock.start).
  - simpl. lia.
  - reflexivity.
  - reflexivity.
Defined.

(** X2, a run outside the host: the module is not found. *)
Lemma main_import_raises_witness :
  main Mock.runtime
    (ImportRaises (Exn ModuleNotFoundError "No module named 'nuke'"))
    ["nuke_bridge.py"; "getNode"; "{}"] Mock.start
  = (Ok tt,
     World Mock.studio []
       [failure
          ("Failed to import nuke module. "
           ++ "Make sure this script is run within Nuke.")]).
Proof.
  apply (@main_import_raises Mock.session Mock.runtime
           ["nuke_bridge.py"; "getNode"; "{}"] (PDict [])
           (Exn ModuleNotFoundError "No module named 'nuke'") Mock.start).
  - split; [simpl; lia|reflexivity].
  - reflexivity.
Defined.

(** X3, a run: the command name in lower case. *)
Lemma main_unknown_command_witness :
  main Mock.runtime (Imported Mock.host)
    ["nuke_bridge.py"; "getnode"; "{}"] Mock.start
  = (Ok tt,
     World Mock.studio [] [failure "Unknown command: getnode"]).
Proof.
  apply (@main_unknown_command Mock.session Mock.runtime Mock.host
           ["nuke_bridge.py"; "getnode"; "{}"] (PDict []) Mock.start).
  - split; [simpl; lia|reflexivity].
  - cbn. intuition discriminate.
Defined.

(** X4, a run: [execute] alone. *)
Lemma main_command_alone_witness :
  exists key rest,
    required_keys "execute" = key :: rest
    /\ main Mock.runtime (Imported Mock.host) ["nuke_bridge.py"; "execute"]
         Mock.start
       = (Ok tt,
          World (w_host Mock.start) (w_calls Mock.start)
            (w_out Mock.start ++ [failure (key ++ " parameter is required")])).
Proof.
  apply (@main_command_alone Mock.session Mock.runtime Mock.host
           "nuke_bridge.py" "execute" Mock.start).
  cbn. tauto.
Defined.

(** X5, a run: the argument text is a list of the key names. *)
Lemma main_not_a_mapping_witness :
  exists msg,
    main (Mock.python [("[]", PList [PStr "nodeName"])]) (Imported Mock.host)
      ["nuke_bridge.py"; "getNode"; "[]"] Mock.start
    = (Ok tt,
       World (w_host Mock.start) (w_calls Mock.start)
         (w_out Mock.start ++ [failure msg])).
Proof.
  apply (@main_not_a_mapping Mock.session
           (Mock.python [("[]", PList [PStr "nodeName"])]) Mock.host
           ["nuke_bridge.py"; "getNode"; "[]"] (PList [PStr "nodeName"])
           Mock.start).
  - split; [simpl; lia|reflexivity].
  - cbn. tauto.
  - discriminate.
Defined.

(** X6, a run: the node type is a number. *)
Lemma create_node_creation_fails_witness :
  create_node Mock.runtime Mock.host
    (PDict (Mock.create_args (PInt 5) (PList []))) Mock.start
  = (Ok tt,
     World Mock.studio [CreateNode (PInt 5)]
       [failure "Error creating node: argument 1 must be str"]).
Proof.
  apply (@create_node_creation_fails Mock.session Mock.runtime Mock.host
           (Mock.create_args (PInt 5) (PList [])) (PInt 5)
           Mock.bad_argument Mock.studio Mock.start); reflexivity.
Defined.

(** X7, a run: [inputs] is null; the answer is a failure and the
    session has a fourth node. *)
Lemma create_node_inputs_not_iterable_witness :
  exists h,
    create_node Mock.runtime Mock.host
      (PDict (Mock.create_args (PStr "Blur") PNone)) Mock.start
    = (Ok tt,
       World h [CreateNode (PStr "Blur")]
         [failure "Error creating node: bad operand"])
    /\ List.length (Mock.nodes h) = 4.
Proof.
  eexists. split.
  - erewrite (@create_node_inputs_not_iterable Mock.session Mock.runtime
                Mock.host (Mock.create_args (PStr "Blur") PNone));
      cycle 1.
    + reflexivity.
    + reflexivity.
    + reflexivity.
    + apply named_skip. reflexivity.
    + reflexivity.
  - reflexivity.
Defined.

(** X8, two runs: [inputs] is the string "Read1" instead of a list, and
    [inputs] is the two-character string that begins with a capital
    omega, a code point of two bytes. *)
Lemma create_node_inputs_string_witness :
  (exists h,
     create_node Mock.runtime Mock.host
       (PDict (Mock.create_args (PStr "Blur") (PStr "Read1"))) Mock.start
     = (Ok tt,
        World h [CreateNode (PStr "Blur"); ToNode (PStr "R")]
          [failure "Input node not found: R"]))
  /\ (exists h,
        create_node Mock.runtime Mock.host
          (PDict (Mock.create_args (PStr "Blur")
                    (PStr (Mock.omega ++ "1")))) Mock.start
        = (Ok tt,
           World h [CreateNode (PStr "Blur"); ToNode (PStr Mock.omega)]
             [failure ("Input node not found: " ++ Mock.omega)]))
  /\ String.length Mock.omega = 2.
Proof.
  split; [|split].
  - edestruct create_node_inputs_string
      with (rt := Mock.runtime) (nuke := Mock.host)
           (d := Mock.create_args (PStr "Blur") (PStr "Read1"))
           (ncs := @nil hcall) (w := Mock.start)
      as [A _];
      [reflexivity|reflexivity|reflexivity|reflexivity
      |apply named_skip; reflexivity|reflexivity|].
    eexists. exact A.
  - edestruct create_node_inputs_string
      with (rt := Mock.runtime) (nuke := Mock.host)
           (d := Mock.create_args (PStr "Blur") (PStr (Mock.omega ++ "1")))
           (ncs := @nil hcall) (w := Mock.start)
      as [A _];
      [reflexivity|reflexivity|reflexivity|reflexivity
      |apply named_skip; reflexivity|reflexivity|].
    eexists. exact A.
  - reflexivity.
Defined.

(** X9, a run on the refusing host: the first wiring is refused. *)
Lemma create_node_wiring_fails_witness :
  exists h,
    create_node Mock.runtime Mock.refusing (PDict Mock.merge_args)
      Mock.start
    = (Ok tt,
       World h
         [CreateNode (PStr "Merge2"); ToNode (PStr "Read1");
          SetInput (NodeRef 3) 0 (NodeRef 0)]
         [failure "Error creating node: refused"])
    /\ List.length (Mock.nodes h) = 4.
Proof.
  eexists. split.
  - erewrite (@create_node_wiring_fails Mock.session Mock.runtime
                Mock.refusing Mock.merge_args (PStr "Merge2") (PStr "Read1")
                [] [PStr "Nope"; PStr "Grade1"]);
      cycle 1.
    + reflexivity.
    + reflexivity.
    + reflexivity.
    + apply named_skip. reflexivity.
    + apply wired_nil.
    + reflexivity.
    + reflexivity.
    + reflexivity.
    + reflexivity.
  - reflexivity.
Defined.

(** X10, a run: the node is renamed "Soft" and then wired to "Read1"
    and to itself under its new name; the payload reports "Soft". *)
Lemma create_node_succeeds_witness :
  exists h,
    create_node Mock.runtime Mock.host (PDict Mock.soft_args) Mock.start
    = (Ok tt,
       World h
         [CreateNode (PStr "Blur");
          GetItem (NodeRef 3) (PStr "name");
          SetValue (KnobRef (NodeRef 3) 0) (PStr "Soft");
          ToNode (PStr "Read1"); SetInput (NodeRef 3) 0 (NodeRef 0);
          ToNode (PStr "Soft"); SetInput (NodeRef 3) 1 (NodeRef 3);
          NodeName (NodeRef 3); NodeClass (NodeRef 3);
          XPos (NodeRef 3); YPos (NodeRef 3)]
         [success
            (PDict [("name", PStr "Soft"); ("type", PStr "Blur");
                    ("position",
                     PDict [("x", PInt 0); ("y", PInt 0)])])]).
Proof.
  eexists.
  erewrite (@create_node_succeeds Mock.session Mock.runtime Mock.host
              Mock.soft_args);
    cycle 1.
  - reflexivity.
  - reflexivity.
  - reflexivity.
  - eapply named_set; reflexivity.
  - eapply wired_cons; [reflexivity|reflexivity|].
    eapply wired_cons; [reflexivity|reflexivity|apply wired_nil].
  - reflexivity.
  - reflexivity.
  - reflexivity.
  - reflexivity.
  - reflexivity.
  - reflexivity.
Defined.

(** X11, a run on the refusing host. *)
Lemma set_knob_value_refused_witness :
  set_knob_value Mock.runtime Mock.refusing
    (PDict (Mock.set_args "Grade1" "mix")) Mock.start
  = (Ok tt,
     World Mock.studio
       [ToNode (PStr "Grade1"); Knobs (NodeRef 1);
        GetItem (NodeRef 1) (PStr "mix");
        SetValue (KnobRef (NodeRef 1) 2) Mock.one_half]
       [failure "Error setting knob value: refused"]).
Proof.
  erewrite (@set_knob_value_refused Mock.session Mock.runtime Mock.refusing
              (Mock.set_args "Grade1" "mix"));
    cycle 1; try reflexivity.
  cbn. tauto.
Defined.

(** X12, a run. *)
Lemma get_node_missing_witness :
  get_node Mock.runtime Mock.host (PDict [("nodeName", PStr "Nope")])
    Mock.start
  = (Ok tt,
     World Mock.studio [ToNode (PStr "Nope")]
       [failure "Node not found: Nope"]).
Proof.
  apply (@get_node_missing Mock.session Mock.runtime Mock.host
           [("nodeName", PStr "Nope")] (PStr "Nope") Mock.studio Mock.start);
    reflexivity.
Defined.

(** X13, a run: the first frame is no number, and it does not matter. *)
Lemma execute_node_missing_witness :
  execute Mock.runtime Mock.host
    (PDict (Mock.render_args "Nope" (PStr "soon"))) Mock.start
  = (Ok tt,
     World Mock.studio [ToNode (PStr "Nope")]
       [failure "Write node not found: Nope"]).
Proof.
  erewrite (@execute_node_missing Mock.session Mock.runtime Mock.host
              (Mock.render_args "Nope" (PStr "soon")));
    cycle 1; reflexivity.
Defined.

(** X14, a run on the refusing host. *)
Lemma execute_render_fails_witness :
  execute Mock.runtime Mock.refusing
    (PDict (Mock.render_args "Write1" Mock.one_and_a_half)) Mock.start
  = (Ok tt,
     World Mock.studio
       [ToNode (PStr "Write1"); NodeClass (NodeRef 2);
        Execute (NodeRef 2) 1 12]
       [failure "Error executing write node: refused"]).
Proof.
  erewrite (@execute_render_fails Mock.session Mock.runtime Mock.refusing
              (Mock.render_args "Write1" Mock.one_and_a_half));
    cycle 1; reflexivity.
Defined.

(** X15, a run on the session whose render node cannot report its
    path: the answer is a failure, and frames 1 to 12 are rendered. *)
Lemma execute_path_unreadable_witness :
  exists h,
    execute Mock.runtime Mock.host
      (PDict (Mock.render_args "Write2" Mock.one_and_a_half))
      (World Mock.backlot [] [])
    = (Ok tt,
       World h
         [ToNode (PStr "Write2"); NodeClass (NodeRef 1);
          Execute (NodeRef 1) 1 12; GetItem (NodeRef 1) (PStr "file");
          KnobValue (KnobRef (NodeRef 1) 1)]
         [failure "Error executing write node: knob is busy"])
    /\ Mock.renders h = [(NodeRef 1, 1%Z, 12%Z)].
Proof.
  eexists. split.
  - erewrite (@execute_path_unreadable Mock.session Mock.runtime Mock.host
                (Mock.render_args "Write2" Mock.one_and_a_half));
      cycle 1.
    + reflexivity.
    + reflexivity.
    + reflexivity.
    + reflexivity.
    + reflexivity.
    + reflexivity.
    + reflexivity.
    + reflexivity.
    + reflexivity.
    + right. eexists. eexists.
      split; [reflexivity|]. split; reflexivity.
    + reflexivity.
    + reflexivity.
  - reflexivity.
Defined.

(** X17, a run: the interrupt of the render leaves the handler, and it
    is no [Exception]. *)
Lemma dispatch_mapping_catches_witness :
  dispatch Mock.runtime Mock.interrupted "execute"
    (PDict Mock.render_request) Mock.start
  = (Err Mock.interrupt,
     World Mock.studio
       [ToNode (PStr "Write1"); NodeClass (NodeRef 2);
        Execute (NodeRef 2) 1 12] [])
  /\ is_Exception (exn_cls Mock.interrupt) = false.
Proof.
  assert (R : dispatch Mock.runtime Mock.interrupted "execute"
                (PDict Mock.render_request) Mock.start
              = (Err Mock.interrupt,
                 World Mock.studio
                   [ToNode (PStr "Write1"); NodeClass (NodeRef 2);
                    Execute (NodeRef 2) 1 12] [])) by reflexivity.
  split; [exact R|].
  exact (@dispatch_mapping_catches Mock.session Mock.runtime
           Mock.interrupted "execute" Mock.render_request Mock.start
           Mock.interrupt _ R).
Defined.

(** X18, a run: the colour knob "white" of "Grade1". *)
Lemma read_knob_skips_other_kinds_witness :
  read_knob Mock.host (NodeRef 1) [] "white" Mock.start
  = (Ok [],
     World Mock.studio
       [GetItem (NodeRef 1) (PStr "white");
        KnobClass (KnobRef (NodeRef 1) 3);
        KnobClass (KnobRef (NodeRef 1) 3)] []).
Proof.
  erewrite (@read_knob_skips_other_kinds Mock.session Mock.host (NodeRef 1)
              [] "white"); cycle 1; reflexivity.
Defined.

(** X19, a run: every value is null, and the lookup is for null. *)
Lemma dispatch_validated_reaches_host_witness :
  exists key rest v cs,
    required_keys "setKnobValue" = key :: rest
    /\ dict_lookup key
         [("nodeName", PNone); ("knobName", PNone); ("value", PNone)]
       = Some v
    /\ w_calls (snd (dispatch Mock.runtime Mock.host "setKnobValue"
                       (PDict [("nodeName", PNone); ("knobName", PNone);
                               ("value", PNone)]) Mock.start))
       = (w_calls Mock.start
          ++ (if String.eqb "setKnobValue" "createNode"
              then CreateNode v else ToNode v) :: cs)%list.
Proof.
  apply (@dispatch_validated_reaches_host Mock.session Mock.runtime
           Mock.host "setKnobValue"
           [("nodeName", PNone); ("knobName", PNone); ("value", PNone)]
           Mock.start).
  - cbn. tauto.
  - reflexivity.
Defined.
